(** * pulp_file: the synchronization task

    A shallow embedding of [pulp_file/app/tasks/synchronizing.py] and the
    properties of its delta computation, its addition and removal planners
    and its orchestration of one sync.

    Layout: Python helpers the task calls ([str], [posixpath],
    [urllib.parse]), the data model, the planners, the collaborators
    (downloader, version store, change set) and [synchronize]; then the
    lemmas and theorems. *)

From Stdlib Require Import String Ascii List ZArith Lia Permutation.
From stdpp Require Import base gmap sets list strings.

Local Open Scope string_scope.
#[local] Set Warnings "-clear-no-such-hyp".

(** ** Python [str] operations used by the library code below *)
Module PyStr.

Definition is_empty (s : string) : bool :=
  match s with EmptyString => true | String _ _ => false end.

(** [c in s] *)
Fixpoint contains (c : ascii) (s : string) : bool :=
  match s with
  | EmptyString => false
  | String a r => Ascii.eqb a c || contains c r
  end.

(** [(s[:i], s[i+1:])] for [i = s.find(c)], or [None] when [c not in s]. *)
Fixpoint partition (c : ascii) (s : string) : option (string * string) :=
  match s with
  | EmptyString => None
  | String a r =>
      if Ascii.eqb a c then Some (EmptyString, r)
      else match partition c r with
           | Some (h, t) => Some (String a h, t)
           | None => None
           end
  end.

(** [(s[:i], s[i:])] for [i = s.rfind(c) + 1]; [i = 0] when [c not in s]. *)
Fixpoint rpartition (c : ascii) (s : string) : string * string :=
  match s with
  | EmptyString => (EmptyString, EmptyString)
  | String a r =>
      let (h, t) := rpartition c r in
      if negb (is_empty h) then (String a h, t)
      else if Ascii.eqb a c then (String a EmptyString, t)
      else (EmptyString, String a t)
  end.

(** [(s[:i], s[i:])] for the least [i] with [p s[i]], or [(s, "")]. *)
Fixpoint span_until (p : ascii -> bool) (s : string) : string * string :=
  match s with
  | EmptyString => (EmptyString, EmptyString)
  | String a r =>
      if p a then (EmptyString, s)
      else let (h, t) := span_until p r in (String a h, t)
  end.

(** [s.rstrip(c)] *)
Fixpoint rstrip (c : ascii) (s : string) : string :=
  match s with
  | EmptyString => EmptyString
  | String a r =>
      let r' := rstrip c r in
      if is_empty r' && Ascii.eqb a c then EmptyString else String a r'
  end.

(** [all(p(x) for x in s)] *)
Fixpoint all (p : ascii -> bool) (s : string) : bool :=
  match s with
  | EmptyString => true
  | String a r => p a && all p r
  end.

(** [s.startswith(p)] *)
Definition startswith (p s : string) : bool := String.prefix p s.

(** [s.endswith(c)] for a one-character [c]. *)
Fixpoint endswith (c : ascii) (s : string) : bool :=
  match s with
  | EmptyString => false
  | String a EmptyString => Ascii.eqb a c
  | String _ r => endswith c r
  end.

(** [s[:-1]] *)
Fixpoint drop_last (s : string) : string :=
  match s with
  | EmptyString => EmptyString
  | String _ EmptyString => EmptyString
  | String a r => String a (drop_last r)
  end.

Definition in_range (lo hi : nat) (c : ascii) : bool :=
  (lo <=? nat_of_ascii c)%nat && (nat_of_ascii c <=? hi)%nat.

Definition isdigit (c : ascii) : bool := in_range 48 57 c.
Definition isupper (c : ascii) : bool := in_range 65 90 c.
Definition islower (c : ascii) : bool := in_range 97 122 c.

Definition lower_char (c : ascii) : ascii :=
  if isupper c then ascii_of_nat (nat_of_ascii c + 32) else c.

(** [s.lower()] on ASCII text. *)
Fixpoint lower (s : string) : string :=
  match s with
  | EmptyString => EmptyString
  | String a r => String (lower_char a) (lower r)
  end.

End PyStr.

(** ** [os.path] on POSIX ([posixpath.dirname], [posixpath.join]) *)
Module os_path.

Definition sep : ascii := "/"%char.

(** [i = p.rfind(sep) + 1; head = p[:i]]; trailing separators are stripped
    unless the head is made of separators only. *)
Definition dirname (p : string) : string :=
  let head := fst (PyStr.rpartition sep p) in
  if negb (PyStr.is_empty head) && negb (PyStr.all (Ascii.eqb sep) head)
  then PyStr.rstrip sep head
  else head.

(** [join(a, b)]: an absolute [b] replaces [a]; otherwise [b] is appended,
    with a separator unless [a] is empty or already ends with one. *)
Definition join (a b : string) : string :=
  if PyStr.startswith (String sep EmptyString) b then b
  else if PyStr.is_empty a || PyStr.endswith sep a then a ++ b
  else a ++ String sep b.

End os_path.

(** ** Exceptions and results *)

Inductive Exception : Type :=
  | ValueError (msg : string)
  | TypeError
  | AttributeError
  | DoesNotExist
  | CollaboratorError (what : string).

Inductive result (A : Type) : Type :=
  | Ok (a : A)
  | Raise (e : Exception).
Arguments Ok {A} a.
Arguments Raise {A} e.

Definition rbind {A B} (r : result A) (k : A -> result B) : result B :=
  match r with
  | Ok a => k a
  | Raise e => Raise e
  end.

(** ** [urllib.parse]: [urlparse] and [urlunparse] (CPython 3.6) *)
Module urllib.

Record ParseResult : Type := mkParseResult {
  scheme : string;
  netloc : string;
  path : string;
  params : string;
  query : string;
  fragment : string
}.

(** [parsed._replace(path=p)] *)
Definition replace_path (r : ParseResult) (p : string) : ParseResult :=
  {| scheme := scheme r; netloc := netloc r; path := p;
     params := params r; query := query r; fragment := fragment r |}.

Definition uses_params : list string :=
  ["ftp"; "hdl"; "prospero"; "http"; "imap"; "https"; "shttp"; "rtsp";
   "rtspu"; "sip"; "sips"; "mms"; ""; "sftp"; "tel"].

Definition uses_netloc : list string :=
  ["ftp"; "http"; "gopher"; "nntp"; "telnet"; "imap"; "wais"; "file"; "mms";
   "https"; "shttp"; "snews"; "prospero"; "rtsp"; "rtspu"; "rsync"; "";
   "svn"; "svn+ssh"; "sftp"; "nfs"; "git"; "git+ssh"].

Definition mem (s : string) (l : list string) : bool :=
  existsb (String.eqb s) l.

Definition scheme_char (c : ascii) : bool :=
  PyStr.islower c || PyStr.isupper c || PyStr.isdigit c
  || Ascii.eqb c "+" || Ascii.eqb c "-" || Ascii.eqb c ".".

Definition is_delim (c : ascii) : bool :=
  Ascii.eqb c "/" || Ascii.eqb c "?" || Ascii.eqb c "#".

(** [_splitnetloc(url, 2)] for a [url] that starts with ["//"]. *)
Definition splitnetloc (url : string) : string * string :=
  match url with
  | String _ (String _ r) => PyStr.span_until is_delim r
  | _ => (EmptyString, EmptyString)
  end.

Definition bad_brackets (nl : string) : bool :=
  (PyStr.contains "[" nl && negb (PyStr.contains "]" nl))
  || (PyStr.contains "]" nl && negb (PyStr.contains "[" nl)).

(** The tail of [urlsplit] once the scheme is settled: network location,
    fragment, query. *)
Definition split_rest (sch url : string)
  : result (string * string * string * string * string) :=
  rbind
    (if PyStr.startswith "//" url then
       let (nl, rest) := splitnetloc url in
       if bad_brackets nl then Raise (ValueError "Invalid IPv6 URL")
       else Ok (nl, rest)
     else Ok (EmptyString, url))
    (fun '(nl, url) =>
       let (url, frag) :=
         match PyStr.partition "#" url with
         | Some (u, f) => (u, f)
         | None => (url, EmptyString)
         end in
       let (url, qry) :=
         match PyStr.partition "?" url with
         | Some (u, q) => (u, q)
         | None => (url, EmptyString)
         end in
       Ok (sch, nl, url, qry, frag)).

(** [urlsplit(url)] with the default [scheme=''] and fragments allowed. *)
Definition urlsplit (url : string)
  : result (string * string * string * string * string) :=
  match PyStr.partition ":" url with
  | Some (String c pre, rest) =>
      let pre := String c pre in
      if String.eqb pre "http" then split_rest (PyStr.lower pre) rest
      else if PyStr.all scheme_char pre
              && (PyStr.is_empty rest || negb (PyStr.all PyStr.isdigit rest))
           then split_rest (PyStr.lower pre) rest
           else split_rest EmptyString url
  | _ => split_rest EmptyString url
  end.

(** [_splitparams(url)] *)
Definition splitparams (url : string) : string * string :=
  if PyStr.contains "/" url then
    let (head, tail) := PyStr.rpartition "/" url in
    match PyStr.partition ";" tail with
    | Some (t, p) => (head ++ t, p)
    | None => (url, EmptyString)
    end
  else
    match PyStr.partition ";" url with
    | Some (u, p) => (u, p)
    | None => (PyStr.drop_last url, url)
    end.

Definition urlparse (url : string) : result ParseResult :=
  rbind (urlsplit url) (fun '(sch, nl, url, qry, frag) =>
    let (url, prm) :=
      if mem sch uses_params && PyStr.contains ";" url
      then splitparams url else (url, EmptyString) in
    Ok (mkParseResult sch nl url prm qry frag)).

Definition urlunsplit (sch nl url qry frag : string) : string :=
  let url :=
    if negb (PyStr.is_empty nl)
       || (negb (PyStr.is_empty sch) && mem sch uses_netloc
           && negb (PyStr.startswith "//" url))
    then
      let url :=
        if negb (PyStr.is_empty url) && negb (PyStr.startswith "/" url)
        then "/" ++ url else url in
      "//" ++ nl ++ url
    else url in
  let url := if PyStr.is_empty sch then url else sch ++ ":" ++ url in
  let url := if PyStr.is_empty qry then url else url ++ "?" ++ qry in
  if PyStr.is_empty frag then url else url ++ "#" ++ frag.

Definition urlunparse (r : ParseResult) : string :=
  let url :=
    if PyStr.is_empty (params r) then path r
    else path r ++ ";" ++ params r in
  urlunsplit (scheme r) (netloc r) url (query r) (fragment r).

End urllib.

(** ** Data model *)

(** [Key = namedtuple('Key', ('path', 'digest'))]: the natural key. *)
Record Key : Type := mkKey { path : string; digest : string }.

#[global] Instance Key_eq_dec : EqDecision Key.
Proof. solve_decision. Defined.

#[global] Program Instance Key_countable : Countable Key :=
  inj_countable' (fun k => (path k, digest k)) (fun p => mkKey (fst p) (snd p)) _.
Next Obligation. by intros []. Qed.

(** [Delta = namedtuple('Delta', ('additions', 'removals'))] *)
Record Delta : Type := mkDelta { additions : gset Key; removals : gset Key }.

(** Modelled from the spec: [pulp_file.manifest] is not part of the sources
    at hand. An entry carries [path], [digest] and [size]; a manifest is the
    already parsed sequence of its entries, and [read] yields the identical
    sequence every time it is called. *)
Module Entry.
Record t : Type := mk { path : string; digest : string; size : Z }.
End Entry.

Module Manifest.
Definition t : Type := list Entry.t.
Definition read (m : t) : list Entry.t := m.
End Manifest.

(** Modelled from the spec: [pulp_file.app.models] is not part of the sources
    at hand. A [FileContent] is a content unit with the natural key fields
    [path] and [digest], the two fields the task reads and sets. *)
Module FileContent.
Record t : Type := mk { path : string; digest : string }.
#[global] Instance eq_dec : EqDecision t.
Proof. solve_decision. Defined.
End FileContent.

(** Modelled from the spec: a [FileImporter] of [pulp_file.app.models], with
    the two fields the task reads, [name] and [feed_url]; an unset [feed_url]
    is [None]. *)
Module FileImporter.
Record t : Type := mk { name : string; feed_url : option string }.
End FileImporter.

(** The models of [pulpcore] that the task handles, with the fields it
    reads or sets. *)
Module Repository.
Record t : Type := mk { name : string }.
End Repository.

(** A repository version: its number and the content it holds. *)
Module RepositoryVersion.
Record t : Type := mk { number : nat; content : list FileContent.t }.
End RepositoryVersion.

Module Artifact.
Record t : Type := mk { size : Z; sha256 : string }.
End Artifact.

(** [PendingArtifact(model, url, relative_path)] *)
Module PendingArtifact.
Record t : Type :=
  mk { model : Artifact.t; url : string; relative_path : string }.
End PendingArtifact.

(** [PendingContent(model, artifacts)]; the task always passes a set of one
    artifact, kept here as a list. *)
Module PendingContent.
Record t : Type :=
  mk { model : FileContent.t; artifacts : list PendingArtifact.t }.
End PendingContent.

(** A generator run to exhaustion: the items it yields, then the exception
    it raises instead of stopping, if any. *)
Definition Gen (A : Type) : Type := (list A * option Exception)%type.

(** [SizedIterable(iterable, length)] *)
Record SizedIterable (A : Type) : Type :=
  mkSizedIterable { iterable : Gen A; length : nat }.
Arguments mkSizedIterable {A} iterable length.
Arguments iterable {A} s.
Arguments length {A} s.

Definition key_of_entry (e : Entry.t) : Key :=
  mkKey (Entry.path e) (Entry.digest e).

Definition key_of_content (f : FileContent.t) : Key :=
  mkKey (FileContent.path f) (FileContent.digest f).

(** ** The planners *)

(** [fetch_content(base_version)] *)
Definition fetch_content (base_version : option RepositoryVersion.t) : gset Key :=
  match base_version with
  | Some v => list_to_set (map key_of_content (RepositoryVersion.content v))
  | None => ∅
  end.

(** [find_delta(manifest, content, mirror=True)]; a caller that leaves
    [mirror] out passes [true]. *)
Definition find_delta (manifest : Manifest.t) (content : gset Key)
    (mirror : bool) : Delta :=
  let remote_content : gset Key :=
    list_to_set (map key_of_entry (Manifest.read manifest)) in
  let additions := remote_content ∖ content in
  let removals := if mirror then content ∖ remote_content else ∅ in
  mkDelta additions removals.

(** The body of [generate] of [build_additions] for one manifest entry. *)
Definition pending_content (parsed_url : urllib.ParseResult)
    (root_dir : string) (entry : Entry.t) : PendingContent.t :=
  let path := os_path.join root_dir (Entry.path entry) in
  let url := urllib.urlunparse (urllib.replace_path parsed_url path) in
  let file := FileContent.mk (Entry.path entry) (Entry.digest entry) in
  let artifact := Artifact.mk (Entry.size entry) (Entry.digest entry) in
  PendingContent.mk file [PendingArtifact.mk artifact url (Entry.path entry)].

(** Whether [generate] gets past its [continue] for this entry. *)
Definition selected (delta : Delta) (entry : Entry.t) : bool :=
  bool_decide (key_of_entry entry ∈ additions delta).

(** [generate()] of [build_additions], with [parsed_url] and [root_dir] of
    the enclosing call. *)
Definition generate_additions (parsed_url : urllib.ParseResult)
    (root_dir : string) (manifest : Manifest.t) (delta : Delta)
  : list PendingContent.t :=
  map (pending_content parsed_url root_dir)
      (filter (fun e => selected delta e = true) (Manifest.read manifest)).

(** [build_additions(importer, manifest, delta)]. [urlparse] runs when the
    function is called and may raise; the generator runs when consumed.
    With [feed_url = None], [urlparse] answers with empty [bytes]
    components and [os.path.join] of [bytes] and [str] raises [TypeError] in
    the generator at the first selected entry. *)
Definition build_additions (importer : FileImporter.t) (manifest : Manifest.t)
    (delta : Delta) : result (SizedIterable PendingContent.t) :=
  match FileImporter.feed_url importer with
  | Some feed =>
      rbind (urllib.urlparse feed) (fun parsed_url =>
        let root_dir := os_path.dirname (urllib.path parsed_url) in
        Ok (mkSizedIterable
              (generate_additions parsed_url root_dir manifest delta, None)
              (size (additions delta))))
  | None =>
      Ok (mkSizedIterable
            ([], if existsb (selected delta) (Manifest.read manifest)
                 then Some TypeError else None)
            (size (additions delta)))
  end.

(** Django [Q] objects over [filecontent__path] and [filecontent__digest]:
    a disjunction of natural keys; [Q()] is the empty one. *)
Definition Q : Type := list Key.
Definition Q_empty : Q := [].
Definition Q_or (q : Q) (key : Key) : Q := (q ++ [key])%list.

Definition Q_matches (q : Q) (f : FileContent.t) : bool :=
  bool_decide (key_of_content f ∈ q).

(** [content.filter(q)]: an empty [Q] filters nothing out. *)
Definition filter_content (q : Q) (content : list FileContent.t)
  : list FileContent.t :=
  match q with
  | [] => content
  | _ => filter (fun f => Q_matches q f = true) content
  end.

(** Modelled from the spec: [BatchIterator] of [pulpcore] is not part of the
    sources at hand. [BatchIterator(iterable, batch)] yields the items in
    fixed-size batches: successive slices of [batch] items, until a slice
    comes out empty. *)
Fixpoint batch_loop {A} (fuel batch : nat) (l : list A) : list (list A) :=
  match fuel with
  | O => []
  | S fuel' =>
      match take batch l with
      | [] => []
      | b => b :: batch_loop fuel' batch (drop batch l)
      end
  end.

Definition BatchIterator {A} (iterable : list A) (batch : nat)
  : list (list A) :=
  batch_loop (S (List.length iterable)) batch iterable.

(** The body of the outer loop of [generate] of [build_removals]: the [Q]
    of the batch is built up key by key and the content is filtered;
    [only('id')] limits the columns that are loaded, not the rows. *)
Definition resolve_batch (content : list FileContent.t) (removals : list Key)
  : list FileContent.t :=
  let q := fold_left Q_or removals Q_empty in
  filter_content q content.

Section Batching.

(** [BatchIterator.BATCH], the default batch size of [pulpcore], which the
    task never overrides. *)
Variable BATCH : nat.

(** [generate()] of [build_removals]; [base_version.content] raises
    [AttributeError] on [None] once a first batch is there. *)
Definition generate_removals (base_version : option RepositoryVersion.t)
    (delta : Delta) : Gen FileContent.t :=
  let batches := BatchIterator (elements (removals delta)) BATCH in
  match base_version with
  | Some v =>
      (flat_map (resolve_batch (RepositoryVersion.content v)) batches, None)
  | None =>
      ([], match batches with [] => None | _ => Some AttributeError end)
  end.

(** [build_removals(base_version, delta)] *)
Definition build_removals (base_version : option RepositoryVersion.t)
    (delta : Delta) : SizedIterable FileContent.t :=
  mkSizedIterable (generate_removals base_version delta)
                  (size (removals delta)).

End Batching.

(** ** The collaborators and the task *)

(** One change handed to the change set, and the report on it. *)
Inductive Change : Type :=
  | Add (c : PendingContent.t)
  | Remove (f : FileContent.t).

Record ChangeReport : Type :=
  mkChangeReport { change : Change; succeeded : bool }.

(** What the apply engine makes of one change: it applies it, it reports the
    item as failed and moves on, or it raises. *)
Inductive Outcome : Type :=
  | Applied
  | Failed
  | Raised (e : Exception).

(** Whether the engine raises on an item. *)
Definition raises (o : Outcome) : bool :=
  match o with Raised _ => true | _ => false end.

Module ChangeSet.
Record t : Type := mk {
  importer : FileImporter.t;
  repository_version : RepositoryVersion.t;
  additions : SizedIterable PendingContent.t;
  removals : SizedIterable FileContent.t
}.
End ChangeSet.

(** What a run leaves behind, in order. Reads of the database leave no
    event. *)
Inductive Event : Type :=
  | EnterWorkingDirectory
  | ExitWorkingDirectory
  | CreateVersion (repository_pk : string) (number : nat)
  | SealVersion (repository_pk : string) (number : nat)
  | DiscardVersion (repository_pk : string) (number : nat)
  | Download (url : option string)
  | LogInfo (repository importer : string)
  | LogDebug (repository importer : string) (report : ChangeReport).

(** The environment of a run: the importer and repository tables, the
    downloader (from a URL to the path of the downloaded file, or a transport
    error), the manifests behind downloaded files, whether the logger has
    DEBUG enabled, and what the apply engine makes of each change. *)
Record World : Type := mkWorld {
  importers : gmap string FileImporter.t;
  repositories : gmap string Repository.t;
  downloader_fetch : option string -> result string;
  manifest_file : string -> Manifest.t;
  debug_enabled : bool;
  outcome : Change -> Outcome
}.

(** The version store and the trace: the sealed versions of each repository,
    oldest first, the version that is open, and the events so far. *)
Record State : Type := mkState {
  versions : gmap string (list RepositoryVersion.t);
  provisional : option (string * RepositoryVersion.t);
  trace : list Event
}.

(** State and exceptions. *)
Definition M (A : Type) : Type := State -> State * result A.

Definition ret {A} (a : A) : M A := fun s => (s, Ok a).
Definition raise {A} (e : Exception) : M A := fun s => (s, Raise e).
Definition lift {A} (r : result A) : M A := fun s => (s, r).

Definition bind {A B} (m : M A) (k : A -> M B) : M B :=
  fun s =>
    match m s with
    | (s', Ok a) => k a s'
    | (s', Raise e) => (s', Raise e)
    end.

Notation "'let*' x ':=' m 'in' k" := (bind m (fun x => k))
  (at level 10, x name, m at level 100, k at level 200).

Definition emit (ev : Event) : M unit :=
  fun s => (mkState (versions s) (provisional s) (trace s ++ [ev])%list, Ok tt).

(** [for x in g: body(x)] over a generator. *)
Fixpoint for_each {A} (l : list A) (body : A -> M unit) : M unit :=
  match l with
  | [] => ret tt
  | x :: l' => let* _ := body x in for_each l' body
  end.

Definition for_gen {A} (g : Gen A) (body : A -> M unit) : M unit :=
  let* _ := for_each (fst g) body in
  match snd g with
  | Some e => raise e
  | None => ret tt
  end.

(** [Model.objects.get(pk=pk)] *)
Definition objects_get {A} (table : gmap string A) (pk : string) : M A :=
  match table !! pk with
  | Some a => ret a
  | None => raise DoesNotExist
  end.

(** Python truthiness of [importer.feed_url]. *)
Definition truthy (s : option string) : bool :=
  match s with
  | Some u => negb (PyStr.is_empty u)
  | None => false
  end.

(** Modelled from the spec: the version store of [pulpcore] is not part of
    the sources at hand. [latest(repository)] is the newest sealed version or
    none. *)
Definition latest_version (repository_pk : string) (s : State)
  : option RepositoryVersion.t :=
  last (versions s !!! repository_pk).

Definition latest (repository_pk : string) : M (option RepositoryVersion.t) :=
  fun s => (s, Ok (latest_version repository_pk s)).

Definition seal (s : State) : State :=
  match provisional s with
  | Some (pk, v) =>
      mkState (<[pk := ((versions s !!! pk) ++ [v])%list]> (versions s)) None
              (trace s ++ [SealVersion pk (RepositoryVersion.number v)])%list
  | None => s
  end.

Definition discard (s : State) : State :=
  match provisional s with
  | Some (pk, v) =>
      mkState (versions s) None
              (trace s ++ [DiscardVersion pk (RepositoryVersion.number v)])%list
  | None => s
  end.

(** Modelled from the spec: the version opened on top of a base version
    holds the content of the base and the next number; without a base it is
    empty. *)
Definition next_version (base_version : option RepositoryVersion.t)
  : RepositoryVersion.t :=
  match base_version with
  | Some b => RepositoryVersion.mk (S (RepositoryVersion.number b))
                                   (RepositoryVersion.content b)
  | None => RepositoryVersion.mk 1 []
  end.

(** Modelled from the spec: [with RepositoryVersion.create(repository) as
    new_version] of [pulpcore]. The new version is created open, derived from
    the latest version (or from empty), and handed to the body; it is sealed
    when the body ends normally and discarded entirely when the body
    raises. *)
Definition with_new_version {A} (repository_pk : string)
    (body : RepositoryVersion.t -> M A) : M A :=
  fun s =>
    let new_version := next_version (latest_version repository_pk s) in
    let s1 :=
      mkState (versions s) (Some (repository_pk, new_version))
              (trace s ++ [CreateVersion repository_pk
                             (RepositoryVersion.number new_version)])%list in
    match body new_version s1 with
    | (s2, Ok a) => (seal s2, Ok a)
    | (s2, Raise e) => (discard s2, Raise e)
    end.

(** Modelled from the spec: [with WorkingDirectory()] of [pulpcore]; the
    directory is released on every exit path. *)
Definition with_working_directory {A} (body : M A) : M A :=
  fun s =>
    let '(s1, _) := emit EnterWorkingDirectory s in
    let '(s2, r) := body s1 in
    let '(s3, _) := emit ExitWorkingDirectory s2 in
    (s3, r).

(** Modelled from the spec: the apply engine ([ChangeSet.apply] of
    [pulpcore]) is not part of the sources at hand. An applied addition
    attaches its content unit to the version (a unit already there is not
    attached twice); an applied removal detaches the unit; a failed item
    changes nothing and is reported as failed. *)
Definition apply_change (c : Change) (content : list FileContent.t)
  : list FileContent.t :=
  match c with
  | Add p =>
      let f := PendingContent.model p in
      if bool_decide (f ∈ content) then content else (content ++ [f])%list
  | Remove f => filter (fun g => g <> f) content
  end.

Fixpoint apply_changes (oc : Change -> Outcome) (changes : list Change)
    (content : list FileContent.t)
  : list FileContent.t * Gen ChangeReport :=
  match changes with
  | [] => (content, ([], None))
  | c :: rest =>
      match oc c with
      | Applied =>
          let '(content', (reports, e)) :=
            apply_changes oc rest (apply_change c content) in
          (content', (mkChangeReport c true :: reports, e))
      | Failed =>
          let '(content', (reports, e)) := apply_changes oc rest content in
          (content', (mkChangeReport c false :: reports, e))
      | Raised e => (content, ([], Some e))
      end
  end.

(** [itertools.chain] of two generators. *)
Definition chain {A} (g1 g2 : Gen A) : Gen A :=
  match snd g1 with
  | Some e => (fst g1, Some e)
  | None => ((fst g1 ++ fst g2)%list, snd g2)
  end.

Definition gen_map {A B} (f : A -> B) (g : Gen A) : Gen B :=
  (map f (fst g), snd g).

(** The changes that the change set draws from two plans. *)
Definition plan_changes (adds : SizedIterable PendingContent.t)
    (rems : SizedIterable FileContent.t) : Gen Change :=
  chain (gen_map Add (iterable adds)) (gen_map Remove (iterable rems)).

(** [changeset.apply()]: the additions, then the removals, are drawn from
    their generators and applied to the open version; the reports come back
    as a generator that raises what the engine or a plan generator raised. *)
Definition changeset_apply (w : World) (changeset : ChangeSet.t)
  : M (Gen ChangeReport) :=
  fun s =>
    let plan :=
      plan_changes (ChangeSet.additions changeset)
                   (ChangeSet.removals changeset) in
    match provisional s with
    | Some (pk, v) =>
        let '(content', (reports, e)) :=
          apply_changes (outcome w) (fst plan) (RepositoryVersion.content v) in
        (mkState (versions s)
                 (Some (pk, RepositoryVersion.mk (RepositoryVersion.number v)
                                                 content'))
                 (trace s),
         Ok (reports, match e with Some x => Some x | None => snd plan end))
    | None => (s, Raise (CollaboratorError "no open version"))
    end.

(** [fetch_manifest(importer)] *)
Definition fetch_manifest (w : World) (importer : FileImporter.t)
  : M Manifest.t :=
  let* _ := emit (Download (FileImporter.feed_url importer)) in
  let* path := lift (downloader_fetch w (FileImporter.feed_url importer)) in
  ret (manifest_file w path).

Section Task.

Variable BATCH : nat.

(** The loop of [synchronize] over [changeset.apply()]: a report is looked
    at only to log it when DEBUG is enabled. *)
Definition apply_and_log (w : World) (repository : Repository.t)
    (importer : FileImporter.t) (changeset : ChangeSet.t) : M unit :=
  let* reports := changeset_apply w changeset in
  for_gen reports (fun report =>
    if negb (debug_enabled w) then ret tt
    else emit (LogDebug (Repository.name repository)
                        (FileImporter.name importer) report)).

(** The body of the two [with] blocks of [synchronize]. *)
Definition sync_body (w : World) (importer : FileImporter.t)
    (repository : Repository.t) (base_version : option RepositoryVersion.t)
    (new_version : RepositoryVersion.t) : M unit :=
  let* _ := emit (LogInfo (Repository.name repository)
                          (FileImporter.name importer)) in
  let* manifest := fetch_manifest w importer in
  let content := fetch_content base_version in
  let delta := find_delta manifest content true in
  let* additions := lift (build_additions importer manifest delta) in
  let removals := build_removals BATCH base_version delta in
  let changeset := ChangeSet.mk importer new_version additions removals in
  apply_and_log w repository importer changeset.

(** [synchronize(importer_pk, repository_pk)] *)
Definition synchronize (w : World) (importer_pk repository_pk : string)
  : M unit :=
  let* importer := objects_get (importers w) importer_pk in
  let* repository := objects_get (repositories w) repository_pk in
  let* base_version := latest repository_pk in
  if negb (truthy (FileImporter.feed_url importer)) then
    raise (ValueError
             "An importer must have a feed_url specified to synchronize.")
  else
    with_working_directory
      (with_new_version repository_pk
         (sync_body w importer repository base_version)).

End Task.

(** The lookup the batches are compared with, in the words of the
    specification: the content of the base version whose (path, digest)
    matches any of the keys, in one go. *)
Definition unbatched_lookup (content : list FileContent.t) (keys : gset Key)
  : list FileContent.t :=
  filter (fun f => key_of_content f ∈ keys) content.

(** Whether a relative path has a [..] segment. *)
Fixpoint segments_from (acc : string) (s : string) : list string :=
  match s with
  | EmptyString => [acc]
  | String a r =>
      if Ascii.eqb a "/" then acc :: segments_from EmptyString r
      else segments_from (acc ++ String a EmptyString) r
  end.

Definition has_dotdot (p : string) : bool :=
  bool_decide (".." ∈ segments_from EmptyString p).

(** The natural keys of a list of content units. *)
Definition content_keys (content : list FileContent.t) : gset Key :=
  list_to_set (map key_of_content content).

(** The key set a manifest lists. *)
Definition manifest_keys (manifest : Manifest.t) : gset Key :=
  list_to_set (map key_of_entry (Manifest.read manifest)).

(** What the loop over the reports adds to the trace. *)
Definition debug_events (w : World) (repository : Repository.t)
    (importer : FileImporter.t) (reports : list ChangeReport) : list Event :=
  if debug_enabled w
  then map (LogDebug (Repository.name repository) (FileImporter.name importer))
           reports
  else [].

(** The reports that a trace shows as logged. *)
Definition logged_reports (tr : list Event) : list ChangeReport :=
  flat_map (fun ev => match ev with LogDebug _ _ r => [r] | _ => [] end) tr.

(** The state once the working directory is left. *)
Definition leave_directory (s : State) : State :=
  mkState (versions s) (provisional s) (trace s ++ [ExitWorkingDirectory])%list.

(** The events of a run up to the download of the manifest. *)
Definition opening (s : State) (repository_pk : string)
    (repository : Repository.t) (importer : FileImporter.t) : list Event :=
  [EnterWorkingDirectory;
   CreateVersion repository_pk
     (RepositoryVersion.number
        (next_version (latest_version repository_pk s)));
   LogInfo (Repository.name repository) (FileImporter.name importer);
   Download (FileImporter.feed_url importer)].

(** The state after a run from [s] that was aborted inside the [with]
    blocks: the sealed versions are those of [s], no version is open, and the
    events [mid] of the body are followed by the discard of the version that
    was opened. *)
Definition aborted (s : State) (repository_pk : string) (mid : list Event)
  : State :=
  mkState (versions s) None
    (trace s ++ mid
     ++ [DiscardVersion repository_pk
           (RepositoryVersion.number
              (next_version (latest_version repository_pk s)));
         ExitWorkingDirectory])%list.

(** The state after a run from [s] that sealed a new version holding
    [content]. *)
Definition committed (s : State) (repository_pk : string)
    (content : list FileContent.t) (mid : list Event) : State :=
  let n := RepositoryVersion.number
             (next_version (latest_version repository_pk s)) in
  mkState
    (<[repository_pk :=
         ((versions s !!! repository_pk)
          ++ [RepositoryVersion.mk n content])%list]> (versions s))
    None
    (trace s ++ mid ++ [SealVersion repository_pk n;
                        ExitWorkingDirectory])%list.

(** ** Scenarios *)
Module Scenario.

Definition feed : string := "http://host/repo/PULP_MANIFEST".
Definition importer : FileImporter.t := FileImporter.mk "files" (Some feed).
Definition repository : Repository.t := Repository.mk "repo".

Definition a1 : FileContent.t := FileContent.mk "a" "1".
Definition b2 : FileContent.t := FileContent.mk "b" "2".
Definition c3 : FileContent.t := FileContent.mk "c" "3".

Definition base : RepositoryVersion.t := RepositoryVersion.mk 1 [a1; b2].
Definition remote : Manifest.t := [Entry.mk "b" "2" 20; Entry.mk "c" "3" 30].

Definition world (fetch : result string) (m : Manifest.t) (oc : Change -> Outcome)
  : World :=
  mkWorld {[ "I" := importer ]} {[ "R" := repository ]}
          (fun _ => fetch) (fun _ => m) true oc.

Definition store : State := mkState {[ "R" := [base] ]} None [].
Definition empty_store : State := mkState ∅ None [].

(** The engine reports every addition as failed and raises nothing. *)
Definition additions_fail (c : Change) : Outcome :=
  match c with Add _ => Failed | Remove _ => Applied end.

Definition duplicated : Manifest.t :=
  [Entry.mk "a" "1" 10; Entry.mk "a" "1" 10].

Definition escaping : Manifest.t := [Entry.mk "../secret.iso" "9" 1].

End Scenario.

(** ** Auxiliary notions for the further properties *)

(** The same world with the logger's DEBUG level switched. *)
Definition with_debug (w : World) (enabled : bool) : World :=
  mkWorld (importers w) (repositories w) (downloader_fetch w)
          (manifest_file w) enabled (outcome w).

(** The keys that the additions, and the removals, of a list of changes are
    about. *)
Definition added_keys (changes : list Change) : gset Key :=
  list_to_set
    (flat_map (fun c => match c with
                        | Add p => [key_of_content (PendingContent.model p)]
                        | Remove _ => []
                        end) changes).

Definition removed_keys (changes : list Change) : gset Key :=
  list_to_set
    (flat_map (fun c => match c with
                        | Add _ => []
                        | Remove f => [key_of_content f]
                        end) changes).

(** The event that closes the version of a run: sealed when the run ended
    normally, discarded when it raised. *)
Definition closing_event {A} (repository_pk : string) (number : nat)
    (r : result A) : Event :=
  match r with
  | Ok _ => SealVersion repository_pk number
  | Raise _ => DiscardVersion repository_pk number
  end.

(** ** URLs as text *)

(** A part of a URL behind its mark, written only when the part is not
    empty: the way [urlunsplit] and [urlunparse] add parameters, query and
    fragment. *)
Definition marked (mark : ascii) (part : string) : string :=
  if PyStr.is_empty part then EmptyString else String mark part.

(** The text [scheme://host/path;params?query#fragment]. *)
Definition url_text (sch host pth prm qry frag : string) : string :=
  sch ++ "://" ++ host ++ pth
      ++ marked ";" prm ++ marked "?" qry ++ marked "#" frag.

(** What the parts of such a text may hold so that each one ends where the
    next mark stands. A scheme is a non-empty run of letters, digits, [+],
    [-] and [.]; a host is not empty, holds none of [/], [?], [#] and no
    unmatched bracket. *)
Definition scheme_text (s : string) : bool :=
  negb (PyStr.is_empty s) && PyStr.all urllib.scheme_char s.

Definition host_text (h : string) : bool :=
  negb (PyStr.is_empty h)
  && PyStr.all (fun c => negb (urllib.is_delim c)) h
  && negb (urllib.bad_brackets h).

(** A piece of a path that holds none of the marks [;], [?] and [#]. *)
Definition plain (s : string) : bool :=
  negb (PyStr.contains ";" s) && negb (PyStr.contains "?" s)
  && negb (PyStr.contains "#" s).

(** The directory of a feed path: empty (the manifest is at the top of its
    host) or an absolute path without a trailing separator. *)
Definition directory_text (d : string) : bool :=
  plain d
  && (PyStr.is_empty d
      || (PyStr.startswith "/" d && negb (PyStr.endswith os_path.sep d))).

(** The last segment of a feed path. *)
Definition file_name_text (n : string) : bool :=
  plain n && negb (PyStr.contains os_path.sep n).

(** Parameters are split off the last path segment for the schemes of
    [uses_params] only. *)
Definition params_text (sch prm : string) : bool :=
  (PyStr.is_empty prm || urllib.mem (PyStr.lower sch) urllib.uses_params)
  && negb (PyStr.contains "/" prm) && negb (PyStr.contains "?" prm)
  && negb (PyStr.contains "#" prm).

(** ** Delta *)

Section DeltaFacts.

Variable manifest : Manifest.t.
Variable L : gset Key.
Variable mirror : bool.

Lemma find_delta_disjoint :
  additions (find_delta manifest L mirror)
  ## removals (find_delta manifest L mirror).
Proof.
  unfold find_delta. cbn. destruct mirror.
  - intros k [Hk _]%elem_of_difference [_ Hk']%elem_of_difference. done.
  - intros k _ Hk. by apply not_elem_of_empty in Hk.
Qed.

Lemma additions_in_manifest (k : Key) :
  k ∈ additions (find_delta manifest L mirror) ->
  exists entry, entry ∈ Manifest.read manifest /\ key_of_entry entry = k.
Proof.
  cbn. intros [Hr _]%elem_of_difference.
  apply elem_of_list_to_set in Hr.
  change (k ∈ key_of_entry <$> Manifest.read manifest) in Hr.
  apply list_elem_of_fmap in Hr as (entry & -> & Hin). by exists entry.
Qed.

(** C1: for every manifest, with remote key set R, every local key set L and
    either value of mirror, find_delta returns additions = R - L and
    removals = L - R when mirror is true and the empty set otherwise; the
    two sets are disjoint. *)
Theorem find_delta_correct :
  let R : gset Key := list_to_set (map key_of_entry (Manifest.read manifest)) in
  let delta := find_delta manifest L mirror in
  additions delta = R ∖ L /\
  removals delta = (if mirror then L ∖ R else ∅) /\
  additions delta ## removals delta.
Proof.
  intros R delta. subst delta. unfold find_delta. cbn. fold R.
  split; [reflexivity |]. split; [reflexivity |].
  apply find_delta_disjoint.
Qed.

End DeltaFacts.

(** Every finite set of keys is the key set of some manifest, so the delta
    lemmas range over all remote key sets. *)
Lemma manifest_of_keys (R : gset Key) :
  exists manifest : Manifest.t, manifest_keys manifest = R.
Proof.
  exists (map (fun k => Entry.mk (path k) (digest k) 0) (elements R)).
  unfold manifest_keys, Manifest.read. rewrite map_map.
  rewrite (map_ext _ id); [| by intros []].
  rewrite map_id. apply list_to_set_elements_L.
Qed.

Lemma mirror_result_keys (manifest : Manifest.t) (L : gset Key) :
  let delta := find_delta manifest L true in
  (L ∖ removals delta) ∪ additions delta = manifest_keys manifest.
Proof.
  cbn. fold (manifest_keys manifest). apply set_eq. intros k.
  rewrite elem_of_union, !elem_of_difference.
  destruct (decide (k ∈ L)), (decide (k ∈ manifest_keys manifest)); tauto.
Qed.

(** ** Batching of removals *)

Section BatchFacts.

Context {A : Type}.
Implicit Types (l b : list A) (fuel batch : nat).

Lemma batch_loop_concat fuel batch l :
  0 < batch -> List.length l < fuel -> concat (batch_loop fuel batch l) = l.
Proof.
  revert l. induction fuel as [| fuel IH]; intros l Hb Hl; [lia |].
  cbn [batch_loop]. destruct (take batch l) as [| x b] eqn:E.
  - destruct l; [done |]. destruct batch; [lia | by cbn in E].
  - rewrite <- E. cbn [concat]. rewrite IH; [apply take_drop | done |].
    rewrite length_drop. destruct l as [| y l]; [by destruct batch |].
    cbn in *. lia.
Qed.

Lemma batch_loop_nonempty fuel batch l b :
  b ∈ batch_loop fuel batch l -> b <> [].
Proof.
  revert l. induction fuel as [| fuel IH]; intros l; cbn [batch_loop].
  - by intros ?%elem_of_nil.
  - destruct (take batch l) as [| x t] eqn:E; [by intros ?%elem_of_nil |].
    intros [-> | Hin]%elem_of_cons; [done | by eapply IH].
Qed.

Lemma batch_loop_size fuel batch l b :
  b ∈ batch_loop fuel batch l -> List.length b <= batch.
Proof.
  revert l. induction fuel as [| fuel IH]; intros l; cbn [batch_loop].
  - by intros ?%elem_of_nil.
  - destruct (take batch l) as [| x t] eqn:E; [by intros ?%elem_of_nil |].
    intros [-> | Hin]%elem_of_cons; [| by eapply IH].
    rewrite <- E, length_take. lia.
Qed.

Lemma BatchIterator_concat batch l :
  0 < batch -> concat (BatchIterator l batch) = l.
Proof. intros. apply batch_loop_concat; [done | lia]. Qed.

End BatchFacts.

Example BatchIterator_sizes :
  BatchIterator (@nil nat) 2 = [] /\
  BatchIterator [1] 2 = [[1]] /\
  BatchIterator [1; 2] 2 = [[1; 2]] /\
  BatchIterator [1; 2; 3] 2 = [[1; 2]; [3]].
Proof. repeat split. Qed.

Lemma fold_left_Q_or (l : list Key) (q : Q) :
  fold_left Q_or l q = (q ++ l)%list.
Proof.
  revert q. induction l as [| k l IH]; intros q; cbn.
  - by rewrite app_nil_r.
  - rewrite IH. unfold Q_or. by rewrite <- app_assoc.
Qed.

Section Lookups.

Variable content : list FileContent.t.

Lemma resolve_batch_filter (b : list Key) :
  b <> [] ->
  resolve_batch content b = filter (fun f => key_of_content f ∈ b) content.
Proof.
  intros Hb. unfold resolve_batch. rewrite fold_left_Q_or. cbn.
  destruct b as [| k b]; [done |]. cbn.
  apply list_filter_iff. intros f. unfold Q_matches.
  rewrite bool_decide_eq_true. done.
Qed.

Lemma filter_app_disjoint (l1 l2 : list Key) :
  (forall k, k ∈ l1 -> k ∈ l2 -> False) ->
  filter (fun f => key_of_content f ∈ (l1 ++ l2)%list) content
  ≡ₚ (filter (fun f => key_of_content f ∈ l1) content
      ++ filter (fun f => key_of_content f ∈ l2) content)%list.
Proof.
  intros Hd. induction content as [| f c IH]; [done |].
  rewrite !filter_cons.
  destruct (decide (key_of_content f ∈ l1)) as [H1 | H1];
    destruct (decide (key_of_content f ∈ l2)) as [H2 | H2].
  - destruct (Hd _ H1 H2).
  - rewrite decide_True by (apply elem_of_app; auto). cbn. by rewrite IH.
  - rewrite decide_True by (apply elem_of_app; auto).
    rewrite IH. apply Permutation_middle.
  - rewrite decide_False; [done |]. rewrite elem_of_app. tauto.
Qed.

Lemma filter_no_key : filter (fun f => key_of_content f ∈ @nil Key) content = [].
Proof.
  induction content as [| f c IH]; [done |].
  rewrite filter_cons, decide_False; [done | apply not_elem_of_nil].
Qed.

Lemma batches_resolve (bs : list (list Key)) :
  NoDup (concat bs) ->
  (forall b, b ∈ bs -> b <> []) ->
  flat_map (resolve_batch content) bs
  ≡ₚ filter (fun f => key_of_content f ∈ concat bs) content.
Proof.
  induction bs as [| b bs IH]; intros Hnd Hne; cbn.
  - by rewrite filter_no_key.
  - apply NoDup_app in Hnd as (_ & Hd & Hnd).
    rewrite resolve_batch_filter by (apply Hne; left).
    rewrite filter_app_disjoint by done.
    rewrite IH; [done | done |]. intros b' Hb'. apply Hne. by right.
Qed.

End Lookups.

Lemma generate_removals_unbatched (BATCH : nat) (v : RepositoryVersion.t)
    (delta : Delta) :
  0 < BATCH ->
  fst (generate_removals BATCH (Some v) delta)
  ≡ₚ unbatched_lookup (RepositoryVersion.content v) (removals delta).
Proof.
  intros HB.
  change (fst (generate_removals BATCH (Some v) delta))
    with (flat_map (resolve_batch (RepositoryVersion.content v))
            (BatchIterator (elements (removals delta)) BATCH)).
  rewrite batches_resolve.
  - rewrite BatchIterator_concat by done. unfold unbatched_lookup.
    erewrite list_filter_iff; [done |]. intros f. cbn.
    apply elem_of_elements.
  - rewrite BatchIterator_concat by done. apply NoDup_elements.
  - intros b. apply batch_loop_nonempty.
Qed.

(** C8: for every positive batch size, every base version and every removal
    set (of any size, so also 0, 1, the batch size and one more), the content
    records that the batched disjunctive lookups of build_removals yield are,
    up to order, exactly those of one unbatched lookup of all the keys: none
    is missing and none comes twice. The batches hold at most the batch size
    of keys each and together hold the removal keys, and in a base version
    without repeated records no record is yielded twice. *)
Theorem build_removals_batching (BATCH : nat) (v : RepositoryVersion.t)
    (delta : Delta) :
  0 < BATCH ->
  let planned := build_removals BATCH (Some v) delta in
  let batches := BatchIterator (elements (removals delta)) BATCH in
  fst (iterable planned)
    ≡ₚ unbatched_lookup (RepositoryVersion.content v) (removals delta) /\
  snd (iterable planned) = None /\
  length planned = size (removals delta) /\
  concat batches = elements (removals delta) /\
  (forall b, b ∈ batches -> 0 < List.length b <= BATCH) /\
  (NoDup (RepositoryVersion.content v) -> NoDup (fst (iterable planned))).
Proof.
  intros HB planned batches.
  assert (Hperm : fst (iterable planned)
            ≡ₚ unbatched_lookup (RepositoryVersion.content v) (removals delta))
    by (by apply generate_removals_unbatched).
  split; [exact Hperm |]. split; [reflexivity |]. split; [reflexivity |].
  split; [by apply BatchIterator_concat |]. split.
  - intros b Hb. split.
    + apply batch_loop_nonempty in Hb. destruct b; [done | cbn; lia].
    + by eapply batch_loop_size.
  - intros Hnd. rewrite Hperm. by apply NoDup_filter.
Qed.

Lemma build_removals_batching_witness :
  0 < 2 /\
  fst (iterable (build_removals 2 (Some Scenario.base)
                   (find_delta [] (fetch_content (Some Scenario.base)) true)))
    ≡ₚ unbatched_lookup (RepositoryVersion.content Scenario.base)
         (removals (find_delta [] (fetch_content (Some Scenario.base)) true)).
Proof.
  split; [lia |].
  apply (build_removals_batching 2 Scenario.base
           (find_delta [] (fetch_content (Some Scenario.base)) true)).
  lia.
Defined.

(** The removal sets of size 0, 1, the batch size and one more, with a batch
    size of 2 over a base version of three records. *)
Example build_removals_sizes :
  let a := FileContent.mk "a" "1" in
  let b := FileContent.mk "b" "2" in
  let c := FileContent.mk "c" "3" in
  let v := RepositoryVersion.mk 1 [a; b; c] in
  let resolved keys :=
    fst (iterable (build_removals 2 (Some v) (mkDelta ∅ (list_to_set keys)))) in
  resolved [] = [] /\
  resolved [mkKey "b" "2"] = [b] /\
  resolved [mkKey "a" "1"; mkKey "c" "3"] ≡ₚ [a; c] /\
  resolved [mkKey "a" "1"; mkKey "b" "2"; mkKey "c" "3"] ≡ₚ [a; b; c].
Proof.
  repeat split; vm_compute;
    repeat first [reflexivity | apply Permutation_refl | apply perm_swap
                 | apply perm_skip].
Qed.

(** ** Paths and URLs *)

Section PathFacts.

Variable c : ascii.

Lemma append_cons (a : ascii) (s t : string) :
  String a s ++ t = String a (s ++ t).
Proof. reflexivity. Qed.

Lemma append_empty (t : string) : EmptyString ++ t = t.
Proof. reflexivity. Qed.

Lemma is_empty_snoc (d t : string) :
  PyStr.is_empty (d ++ String c t) = false.
Proof. by destruct d. Qed.

Lemma rpartition_cons (a : ascii) (s : string) :
  PyStr.rpartition c (String a s)
  = let (h, t) := PyStr.rpartition c s in
    if negb (PyStr.is_empty h) then (String a h, t)
    else if Ascii.eqb a c then (String a EmptyString, t)
    else (EmptyString, String a t).
Proof. reflexivity. Qed.

Lemma rpartition_absent (s : string) :
  PyStr.contains c s = false -> PyStr.rpartition c s = (EmptyString, s).
Proof.
  induction s as [| a s IH]; [done |]. cbn [PyStr.contains].
  intros [Ha Hs]%orb_false_elim. rewrite rpartition_cons, (IH Hs). cbn.
  by rewrite Ha.
Qed.

Lemma rpartition_last (d name : string) :
  PyStr.contains c name = false ->
  PyStr.rpartition c (d ++ String c name) = (d ++ String c EmptyString, name).
Proof.
  intros Hn. induction d as [| a d IH]; rewrite ?append_empty, ?append_cons.
  - rewrite rpartition_cons, (rpartition_absent name Hn). cbn.
    by rewrite Ascii.eqb_refl.
  - rewrite rpartition_cons, IH. by rewrite is_empty_snoc.
Qed.

Lemma all_not_trailing (d t : string) :
  PyStr.is_empty d = false ->
  PyStr.endswith c d = false ->
  PyStr.all (Ascii.eqb c) (d ++ t) = false.
Proof.
  induction d as [| a d IH]; [done |]. intros _ He.
  rewrite append_cons. cbn [PyStr.all]. destruct d as [| a' d].
  - cbn in He. by rewrite Ascii.eqb_sym, He.
  - rewrite IH; [apply andb_false_r | done | exact He].
Qed.

Lemma rstrip_trailing (d : string) :
  PyStr.is_empty d = false ->
  PyStr.endswith c d = false ->
  PyStr.rstrip c (d ++ String c EmptyString) = d.
Proof.
  induction d as [| a d IH]; [done |]. intros _ He.
  rewrite append_cons. cbn [PyStr.rstrip]. destruct d as [| a' d].
  - rewrite append_empty. cbn. rewrite Ascii.eqb_refl. cbn.
    cbn in He. by rewrite He.
  - rewrite IH; [done | done | exact He].
Qed.

End PathFacts.

(** [os.path.dirname] of a file path is its directory. *)
Lemma dirname_of_file (d name : string) :
  PyStr.is_empty d = false ->
  PyStr.endswith os_path.sep d = false ->
  PyStr.contains os_path.sep name = false ->
  os_path.dirname (d ++ "/" ++ name) = d.
Proof.
  intros Hd He Hn. unfold os_path.dirname.
  change (d ++ "/" ++ name) with (d ++ String os_path.sep name).
  rewrite (rpartition_last os_path.sep d name Hn). cbn [fst].
  rewrite is_empty_snoc, (all_not_trailing os_path.sep d _ Hd He). cbn.
  by apply rstrip_trailing.
Qed.

Lemma join_relative (root p : string) :
  PyStr.is_empty root = false ->
  PyStr.endswith os_path.sep root = false ->
  PyStr.startswith "/" p = false ->
  os_path.join root p = root ++ "/" ++ p.
Proof.
  intros H1 H2 H3. unfold os_path.join.
  change (String os_path.sep EmptyString) with "/".
  by rewrite H3, H1, H2.
Qed.

Example dirname_examples :
  os_path.dirname "/repo/PULP_MANIFEST" = "/repo" /\
  os_path.dirname "/PULP_MANIFEST" = "/" /\
  os_path.dirname "PULP_MANIFEST" = "" /\
  os_path.dirname "/a//b" = "/a".
Proof. repeat split. Qed.

Example urlparse_examples :
  urllib.urlparse "http://host/repo/PULP_MANIFEST?x=1#f"
  = Ok (urllib.mkParseResult "http" "host" "/repo/PULP_MANIFEST" "" "x=1" "f")
  /\ urllib.urlparse "file:///srv/files;v=1/PULP_MANIFEST"
     = Ok (urllib.mkParseResult "file" "" "/srv/files;v=1/PULP_MANIFEST"
             "" "" "")
  /\ urllib.urlparse "http://[::1/m"
     = Raise (ValueError "Invalid IPv6 URL").
Proof. repeat split. Qed.

(** ** Additions *)

Section AdditionFacts.

Variable importer : FileImporter.t.
Variable manifest : Manifest.t.
Variable delta : Delta.

Lemma build_additions_ok (feed : string) (parsed : urllib.ParseResult) :
  FileImporter.feed_url importer = Some feed ->
  urllib.urlparse feed = Ok parsed ->
  build_additions importer manifest delta
  = Ok (mkSizedIterable
          (generate_additions parsed (os_path.dirname (urllib.path parsed))
             manifest delta, None)
          (size (additions delta))).
Proof. intros Hf Hp. unfold build_additions. by rewrite Hf, Hp. Qed.

(** The count is the size of the addition set, whatever the generator
    yields. *)
Lemma build_additions_length (planned : SizedIterable PendingContent.t) :
  build_additions importer manifest delta = Ok planned ->
  length planned = size (additions delta).
Proof.
  unfold build_additions.
  destruct (FileImporter.feed_url importer) as [feed |].
  - destruct (urllib.urlparse feed); cbn; [| done]. by intros [= <-].
  - by intros [= <-].
Qed.

Lemma generate_additions_elem (parsed : urllib.ParseResult) (root : string)
    (item : PendingContent.t) :
  item ∈ generate_additions parsed root manifest delta <->
  exists entry, entry ∈ Manifest.read manifest /\
                key_of_entry entry ∈ additions delta /\
                item = pending_content parsed root entry.
Proof.
  unfold generate_additions. rewrite list_elem_of_fmap. split.
  - intros (entry & -> & [Hsel Hin]%list_elem_of_filter).
    exists entry. split; [done |]. split; [| done].
    by apply bool_decide_eq_true in Hsel.
  - intros (entry & Hin & Hk & ->). exists entry. split; [done |].
    apply list_elem_of_filter. split; [| done].
    by apply bool_decide_eq_true.
Qed.

End AdditionFacts.

Lemma NoDup_map_filter {A B} (f : A -> B) (P : A -> Prop)
    `{forall x, Decision (P x)} (l : list A) :
  NoDup (map f l) -> NoDup (map f (filter P l)).
Proof.
  induction l as [| e l IH]; [done |].
  rewrite filter_cons. cbn [map]. intros [Hnot Hnd]%NoDup_cons.
  destruct (decide (P e)); [| by apply IH]. cbn [map].
  apply NoDup_cons. split; [| by apply IH].
  intros (e' & He' & [_ Hin]%list_elem_of_filter)%list_elem_of_fmap.
  apply Hnot, list_elem_of_fmap. eauto.
Qed.

Lemma additions_item_keys (parsed : urllib.ParseResult) (root : string)
    (manifest : Manifest.t) (L : gset Key) (mirror : bool) :
  let delta := find_delta manifest L mirror in
  (list_to_set
     (map (fun p => key_of_content (PendingContent.model p))
          (generate_additions parsed root manifest delta)) : gset Key)
  = additions delta.
Proof.
  intros delta. apply set_eq. intros k. rewrite elem_of_list_to_set.
  change (k ∈ (fun p => key_of_content (PendingContent.model p))
              <$> generate_additions parsed root manifest delta
          <-> k ∈ additions delta).
  rewrite list_elem_of_fmap. split.
  - intros (item & -> & (entry & _ & Hk & ->)%generate_additions_elem).
    exact Hk.
  - intros Hk.
    destruct (additions_in_manifest manifest L mirror k Hk)
      as (entry & Hin & <-).
    exists (pending_content parsed root entry). split; [reflexivity |].
    apply generate_additions_elem. by exists entry.
Qed.

(** With one record per key in the manifest, the planner yields one item per
    addition key. *)
Lemma generate_additions_one_per_key (parsed : urllib.ParseResult)
    (root : string) (manifest : Manifest.t) (L : gset Key) (mirror : bool) :
  NoDup (map key_of_entry (Manifest.read manifest)) ->
  let delta := find_delta manifest L mirror in
  map (fun item => key_of_content (PendingContent.model item))
      (generate_additions parsed root manifest delta)
  ≡ₚ elements (additions delta).
Proof.
  intros Hnd delta.
  apply NoDup_Permutation.
  - unfold generate_additions. rewrite map_map.
    change (fun x => key_of_content
              (PendingContent.model (pending_content parsed root x)))
      with key_of_entry.
    by apply NoDup_map_filter.
  - apply NoDup_elements.
  - intros k. rewrite elem_of_elements.
    pose proof (additions_item_keys parsed root manifest L mirror) as Hk.
    cbv zeta in Hk. fold delta in Hk. rewrite <- Hk.
    by rewrite elem_of_list_to_set.
Qed.

(** C7: on a manifest that holds the record (a, 1) twice and an empty base
    version, the addition set has the one key (a, 1) and the sized iterable
    reports the count 1, but the generator yields two addition-plan items for
    that key. *)
Theorem build_additions_duplicate_records :
  let delta := find_delta Scenario.duplicated ∅ true in
  exists planned,
    build_additions Scenario.importer Scenario.duplicated delta = Ok planned /\
    elements (additions delta) = [mkKey "a" "1"] /\
    length planned = 1 /\
    map (fun item => key_of_content (PendingContent.model item))
        (fst (iterable planned))
    = [mkKey "a" "1"; mkKey "a" "1"].
Proof. eexists. repeat split; vm_compute; reflexivity. Qed.

(** For a feed URL that parses, every manifest entry whose key is among
    the additions gets an addition-plan item with one artifact whose fetch
    URL is the feed URL's scheme, network location, parameters, query and
    fragment put together again around a new path: the entry's path joined
    onto the directory of the feed URL's path. When the feed path is a
    directory, a slash and a file name, and the entry's path is relative, the
    new path is that directory, a slash and the entry's path. Entry
    "sub/dir/file.iso" against "http://host/repo/PULP_MANIFEST" gets
    "http://host/repo/sub/dir/file.iso". *)
Theorem fetch_url_construction (importer : FileImporter.t)
    (manifest : Manifest.t) (delta : Delta) (feed : string)
    (parsed : urllib.ParseResult) (entry : Entry.t) :
  FileImporter.feed_url importer = Some feed ->
  urllib.urlparse feed = Ok parsed ->
  entry ∈ Manifest.read manifest ->
  key_of_entry entry ∈ additions delta ->
  let root_dir := os_path.dirname (urllib.path parsed) in
  let fetch_url :=
    urllib.urlunparse
      (urllib.mkParseResult
         (urllib.scheme parsed) (urllib.netloc parsed)
         (os_path.join root_dir (Entry.path entry))
         (urllib.params parsed) (urllib.query parsed)
         (urllib.fragment parsed)) in
  exists planned,
    build_additions importer manifest delta = Ok planned /\
    PendingContent.mk
      (FileContent.mk (Entry.path entry) (Entry.digest entry))
      [PendingArtifact.mk
         (Artifact.mk (Entry.size entry) (Entry.digest entry))
         fetch_url (Entry.path entry)]
    ∈ fst (iterable planned) /\
    (forall d name : string,
       urllib.path parsed = d ++ "/" ++ name ->
       PyStr.is_empty d = false ->
       PyStr.endswith os_path.sep d = false ->
       PyStr.contains os_path.sep name = false ->
       PyStr.startswith "/" (Entry.path entry) = false ->
       os_path.join root_dir (Entry.path entry)
       = d ++ "/" ++ Entry.path entry).
Proof.
  intros Hf Hp Hin Hk root_dir fetch_url.
  eexists. split; [by apply (build_additions_ok _ _ _ feed) |]. split.
  - cbn [iterable fst]. apply generate_additions_elem. by exists entry.
  - intros d name Hpath Hd He Hn Hrel. subst root_dir.
    rewrite Hpath, (dirname_of_file d name Hd He Hn).
    by apply join_relative.
Qed.

Lemma fetch_url_construction_witness :
  exists planned,
    build_additions Scenario.importer [Entry.mk "sub/dir/file.iso" "7" 7]
      (find_delta [Entry.mk "sub/dir/file.iso" "7" 7] ∅ true) = Ok planned /\
    PendingContent.mk
      (FileContent.mk "sub/dir/file.iso" "7")
      [PendingArtifact.mk (Artifact.mk 7 "7")
         "http://host/repo/sub/dir/file.iso" "sub/dir/file.iso"]
    ∈ fst (iterable planned).
Proof.
  destruct (fetch_url_construction Scenario.importer
              [Entry.mk "sub/dir/file.iso" "7" 7]
              (find_delta [Entry.mk "sub/dir/file.iso" "7" 7] ∅ true)
              Scenario.feed
              (urllib.mkParseResult "http" "host" "/repo/PULP_MANIFEST" "" "" "")
              (Entry.mk "sub/dir/file.iso" "7" 7))
    as (planned & H1 & H2 & _).
  - reflexivity.
  - reflexivity.
  - constructor.
  - apply (bool_decide_unpack _). vm_compute. exact I.
  - exists planned. split; [exact H1 | exact H2].
Defined.

(** ** Paths with [..] *)

(** C4 as stated fails: for the entry "../secret.iso" build_additions raises
    nothing and builds the fetch URL "http://host/repo/../secret.iso". *)
Lemma build_additions_accepts_dotdot :
  has_dotdot "../secret.iso" = true /\
  build_additions Scenario.importer Scenario.escaping
    (find_delta Scenario.escaping ∅ true)
  = Ok (mkSizedIterable
          ([PendingContent.mk
              (FileContent.mk "../secret.iso" "9")
              [PendingArtifact.mk (Artifact.mk 1 "9")
                 "http://host/repo/../secret.iso" "../secret.iso"]],
           None)
          1).
Proof. split; vm_compute; reflexivity. Qed.

(** C4, amended: the addition planner checks no path. The one exception
    build_additions raises is the ValueError of urlparse on the feed URL.
    When the feed URL parses, build_additions raises nothing, its generator
    raises nothing and yields as many items as the manifest has entries with
    a key among the additions, and every such entry, with or without a [..]
    segment in its path, gets an item whose fetch URL is the feed URL with
    its path replaced by the plain join of the feed directory and the entry's
    path. *)
Theorem build_additions_never_rejects (importer : FileImporter.t)
    (manifest : Manifest.t) (delta : Delta) :
  (forall e,
     build_additions importer manifest delta = Raise e ->
     exists feed, FileImporter.feed_url importer = Some feed /\
                  urllib.urlparse feed = Raise e) /\
  (forall feed parsed,
     FileImporter.feed_url importer = Some feed ->
     urllib.urlparse feed = Ok parsed ->
     exists planned,
       build_additions importer manifest delta = Ok planned /\
       snd (iterable planned) = None /\
       List.length (fst (iterable planned))
       = List.length (filter (fun e => key_of_entry e ∈ additions delta)
                             (Manifest.read manifest)) /\
       forall entry,
         entry ∈ Manifest.read manifest ->
         key_of_entry entry ∈ additions delta ->
         PendingContent.mk
           (FileContent.mk (Entry.path entry) (Entry.digest entry))
           [PendingArtifact.mk
              (Artifact.mk (Entry.size entry) (Entry.digest entry))
              (urllib.urlunparse
                 (urllib.replace_path parsed
                    (os_path.join (os_path.dirname (urllib.path parsed))
                                  (Entry.path entry))))
              (Entry.path entry)]
         ∈ fst (iterable planned)).
Proof.
  split.
  - intros e. unfold build_additions.
    destruct (FileImporter.feed_url importer) as [feed |]; [| discriminate].
    destruct (urllib.urlparse feed) as [parsed | e'] eqn:Hp; [discriminate |].
    cbn. intros [= <-]. by exists feed.
  - intros feed parsed Hf Hp. eexists.
    split; [by apply (build_additions_ok _ _ _ feed) |].
    split; [reflexivity |]. split.
    + cbn [iterable fst]. unfold generate_additions.
      rewrite length_map. f_equal. apply list_filter_iff. intros e.
      unfold selected. by rewrite bool_decide_eq_true.
    + intros entry Hin Hk. cbn [iterable fst].
      apply generate_additions_elem. by exists entry.
Qed.

Lemma build_additions_never_rejects_witness :
  exists planned,
    build_additions Scenario.importer Scenario.escaping
      (find_delta Scenario.escaping ∅ true) = Ok planned /\
    snd (iterable planned) = None /\
    PendingContent.mk
      (FileContent.mk "../secret.iso" "9")
      [PendingArtifact.mk (Artifact.mk 1 "9")
         "http://host/repo/../secret.iso" "../secret.iso"]
    ∈ fst (iterable planned).
Proof.
  destruct (build_additions_never_rejects Scenario.importer Scenario.escaping
              (find_delta Scenario.escaping ∅ true)) as [_ H].
  destruct (H Scenario.feed
              (urllib.mkParseResult "http" "host" "/repo/PULP_MANIFEST"
                 "" "" "")
              eq_refl eq_refl) as (planned & H1 & H2 & _ & H3).
  exists planned. split; [exact H1 |]. split; [exact H2 |].
  apply (H3 (Entry.mk "../secret.iso" "9" 1)).
  - constructor.
  - apply (bool_decide_unpack _). vm_compute. exact I.
Defined.

(** ** The apply engine on a plan *)

Section EngineFacts.

Variable oc : Change -> Outcome.

Lemma apply_changes_reports (changes : list Change)
    (content : list FileContent.t) :
  (forall c, raises (oc c) = false) ->
  snd (snd (apply_changes oc changes content)) = None /\
  map change (fst (snd (apply_changes oc changes content))) = changes.
Proof.
  intros Hoc. revert content.
  induction changes as [| c changes IH]; intros content; cbn; [done |].
  specialize (Hoc c) as Hc. destruct (oc c); [| | discriminate].
  - specialize (IH (apply_change c content)).
    destruct (apply_changes oc changes _) as [content' [reports e]].
    cbn in *. destruct IH as [-> ->]. done.
  - specialize (IH content).
    destruct (apply_changes oc changes _) as [content' [reports e]].
    cbn in *. destruct IH as [-> ->]. done.
Qed.

Lemma apply_changes_all_applied (changes : list Change)
    (content : list FileContent.t) :
  (forall c, oc c = Applied) ->
  fst (apply_changes oc changes content)
  = fold_left (fun acc c => apply_change c acc) changes content.
Proof.
  intros Hoc. revert content.
  induction changes as [| c changes IH]; intros content; cbn; [done |].
  rewrite Hoc. specialize (IH (apply_change c content)).
  destruct (apply_changes oc changes _) as [content' [reports e]].
  cbn in *. done.
Qed.

End EngineFacts.

Lemma content_of_key (f : FileContent.t) :
  FileContent.mk (path (key_of_content f)) (digest (key_of_content f)) = f.
Proof. by destruct f. Qed.

Lemma key_of_content_mk (k : Key) :
  key_of_content (FileContent.mk (path k) (digest k)) = k.
Proof. by destruct k. Qed.

Lemma elem_of_content_keys (k : Key) (content : list FileContent.t) :
  k ∈ content_keys content <->
  FileContent.mk (path k) (digest k) ∈ content.
Proof.
  unfold content_keys. rewrite elem_of_list_to_set.
  change (k ∈ key_of_content <$> content
          <-> FileContent.mk (path k) (digest k) ∈ content).
  rewrite list_elem_of_fmap. split.
  - intros (f & -> & Hf). by rewrite content_of_key.
  - intros Hf. eexists. split; [| exact Hf]. by rewrite key_of_content_mk.
Qed.

Lemma content_keys_add (p : PendingContent.t) (content : list FileContent.t) :
  content_keys (apply_change (Add p) content)
  = content_keys content ∪ {[ key_of_content (PendingContent.model p) ]}.
Proof.
  apply set_eq. intros k. rewrite elem_of_union, elem_of_singleton.
  rewrite !elem_of_content_keys. unfold apply_change.
  destruct (bool_decide_reflect (PendingContent.model p ∈ content)) as [Hin | Hin].
  - split; [by left |]. intros [H | ->]; [done |].
    by rewrite content_of_key.
  - rewrite elem_of_app, list_elem_of_singleton. split.
    + intros [H | H]; [by left |]. right. rewrite <- H.
      by rewrite key_of_content_mk.
    + intros [H | ->]; [by left |]. right. by rewrite content_of_key.
Qed.

Lemma content_keys_remove (f : FileContent.t) (content : list FileContent.t) :
  content_keys (apply_change (Remove f) content)
  = content_keys content ∖ {[ key_of_content f ]}.
Proof.
  apply set_eq. intros k.
  rewrite elem_of_difference, elem_of_singleton, !elem_of_content_keys.
  unfold apply_change. rewrite list_elem_of_filter. split.
  - intros [Hne Hin]. split; [done |]. intros ->. apply Hne.
    by rewrite content_of_key.
  - intros [Hin Hne]. split; [| done]. intros <-. apply Hne.
    by rewrite key_of_content_mk.
Qed.

Lemma content_keys_fold_add (items : list PendingContent.t)
    (content : list FileContent.t) :
  content_keys (fold_left (fun acc c => apply_change c acc)
                          (map Add items) content)
  = content_keys content
    ∪ list_to_set (map (fun p => key_of_content (PendingContent.model p)) items).
Proof.
  revert content. induction items as [| p items IH]; intros content.
  - cbn. set_solver.
  - cbn [map fold_left]. rewrite IH, content_keys_add. cbn [list_to_set].
    set_solver.
Qed.

Lemma content_keys_fold_remove (records content : list FileContent.t) :
  content_keys (fold_left (fun acc c => apply_change c acc)
                          (map Remove records) content)
  = content_keys content ∖ content_keys records.
Proof.
  revert content. induction records as [| f records IH]; intros content.
  - change (content_keys []) with (∅ : gset Key). cbn [map fold_left].
    by rewrite difference_empty_L.
  - cbn [map fold_left]. rewrite IH, content_keys_remove.
    change (content_keys (f :: records))
      with ({[ key_of_content f ]} ∪ content_keys records).
    by rewrite difference_difference_l_L.
Qed.

Lemma removal_record_keys (BATCH : nat) (v : RepositoryVersion.t)
    (delta : Delta) :
  0 < BATCH ->
  content_keys (fst (generate_removals BATCH (Some v) delta))
  = removals delta ∩ content_keys (RepositoryVersion.content v).
Proof.
  intros HB. apply set_eq. intros k.
  rewrite elem_of_intersection, !elem_of_content_keys.
  rewrite (generate_removals_unbatched BATCH v delta HB).
  unfold unbatched_lookup. rewrite list_elem_of_filter.
  by rewrite key_of_content_mk.
Qed.

Lemma generate_removals_no_base (BATCH : nat) (manifest : Manifest.t)
    (mirror : bool) :
  generate_removals BATCH None (find_delta manifest ∅ mirror) = ([], None).
Proof.
  unfold generate_removals.
  assert (removals (find_delta manifest ∅ mirror) = ∅) as ->.
  { cbn. destruct mirror; [| done]. apply difference_disjoint_L.
    apply disjoint_empty_l. }
  rewrite elements_empty. by destruct BATCH.
Qed.

(** Within the task the removal generator never raises: without a base
    version there is nothing to remove. *)
Lemma generate_removals_no_raise (BATCH : nat)
    (base : option RepositoryVersion.t) (manifest : Manifest.t)
    (mirror : bool) :
  snd (generate_removals BATCH base
         (find_delta manifest (fetch_content base) mirror)) = None.
Proof.
  destruct base as [v |]; [reflexivity |].
  cbn [fetch_content]. by rewrite generate_removals_no_base.
Qed.

(** What the version holds once every change of the plan is applied, with
    mirror on or off. *)
Lemma plan_result_keys (BATCH : nat) (base : option RepositoryVersion.t)
    (manifest : Manifest.t) (mirror : bool) (parsed : urllib.ParseResult)
    (root : string) :
  0 < BATCH ->
  let L := fetch_content base in
  let delta := find_delta manifest L mirror in
  let changes :=
    (map Add (generate_additions parsed root manifest delta)
     ++ map Remove (fst (generate_removals BATCH base delta)))%list in
  content_keys (fold_left (fun acc c => apply_change c acc) changes
                  (RepositoryVersion.content (next_version base)))
  = (L ∖ removals delta) ∪ additions delta.
Proof.
  intros HB L delta changes. subst changes.
  rewrite fold_left_app, content_keys_fold_remove, content_keys_fold_add.
  unfold delta at 1. rewrite additions_item_keys. fold delta.
  assert (HL : content_keys (RepositoryVersion.content (next_version base)) = L)
    by (by destruct base).
  rewrite HL.
  assert (Hrm : content_keys (fst (generate_removals BATCH base delta))
                = removals delta).
  { destruct base as [v |].
    - rewrite removal_record_keys by done.
      change (content_keys (RepositoryVersion.content v)) with L.
      subst delta. cbn. destruct mirror; set_solver.
    - subst delta L. cbn [fetch_content].
      rewrite generate_removals_no_base. cbn.
      destruct mirror; [| done]. symmetry. apply difference_disjoint_L.
      apply disjoint_empty_l. }
  rewrite Hrm.
  assert (Hd : additions delta ## removals delta)
    by apply (find_delta_disjoint manifest L mirror).
  set_solver.
Qed.

(** Non-mirror safety at the level of the plan: with mirror off every local
    key stays. *)
Lemma additive_plan_keeps_local (BATCH : nat)
    (base : option RepositoryVersion.t) (manifest : Manifest.t)
    (parsed : urllib.ParseResult) (root : string) :
  0 < BATCH ->
  let delta := find_delta manifest (fetch_content base) false in
  fetch_content base
  ⊆ content_keys
      (fold_left (fun acc c => apply_change c acc)
         (map Add (generate_additions parsed root manifest delta)
          ++ map Remove (fst (generate_removals BATCH base delta)))%list
         (RepositoryVersion.content (next_version base))).
Proof.
  intros HB delta.
  pose proof (plan_result_keys BATCH base manifest false parsed root HB) as H.
  cbv zeta in H. fold delta in H. rewrite H.
  subst delta. cbn. set_solver.
Qed.

(** ** One run of the task *)

Lemma for_each_log (w : World) (repository : Repository.t)
    (importer : FileImporter.t) (reports : list ChangeReport) (s : State) :
  for_each reports (fun report =>
    if negb (debug_enabled w) then ret tt
    else emit (LogDebug (Repository.name repository)
                        (FileImporter.name importer) report)) s
  = (mkState (versions s) (provisional s)
             (trace s ++ debug_events w repository importer reports)%list,
     Ok tt).
Proof.
  unfold debug_events. revert s.
  induction reports as [| r reports IH]; intros s; cbn [for_each].
  - unfold ret. destruct s, (debug_enabled w); cbn; by rewrite app_nil_r.
  - unfold bind. destruct (debug_enabled w) eqn:E; cbn [negb].
    + unfold emit at 1. rewrite IH. cbn. by rewrite <- app_assoc.
    + unfold ret at 1. rewrite IH. done.
Qed.

Lemma logged_reports_app (tr1 tr2 : list Event) :
  logged_reports (tr1 ++ tr2) = (logged_reports tr1 ++ logged_reports tr2)%list.
Proof. unfold logged_reports. apply flat_map_app. Qed.

Lemma logged_reports_debug (w : World) (repository : Repository.t)
    (importer : FileImporter.t) (reports : list ChangeReport) :
  debug_enabled w = true ->
  logged_reports (debug_events w repository importer reports) = reports.
Proof.
  intros Hd. unfold debug_events, logged_reports. rewrite Hd.
  induction reports as [| r reports IH]; [done |]. cbn. by rewrite IH.
Qed.

Lemma truthy_false (u : option string) :
  truthy u = false <-> u = None \/ u = Some "".
Proof.
  destruct u as [[| a u] |]; cbn; split; intros H; auto;
    try discriminate; destruct H as [H | H]; discriminate.
Qed.

Lemma truthy_true (u : option string) (feed : string) :
  u = Some feed -> truthy u = true -> PyStr.is_empty feed = false.
Proof. intros ->. cbn. by destruct (PyStr.is_empty feed). Qed.

Lemma leave_discard (vs : gmap string (list RepositoryVersion.t))
    (pk : string) (v : RepositoryVersion.t) (tr : list Event) :
  leave_directory (discard (mkState vs (Some (pk, v)) tr))
  = mkState vs None
      (tr ++ [DiscardVersion pk (RepositoryVersion.number v);
              ExitWorkingDirectory])%list.
Proof.
  unfold leave_directory, discard. cbn. by rewrite <- app_assoc.
Qed.

Lemma leave_seal (vs : gmap string (list RepositoryVersion.t))
    (pk : string) (v : RepositoryVersion.t) (tr : list Event) :
  leave_directory (seal (mkState vs (Some (pk, v)) tr))
  = mkState (<[pk := ((vs !!! pk) ++ [v])%list]> vs) None
      (tr ++ [SealVersion pk (RepositoryVersion.number v);
              ExitWorkingDirectory])%list.
Proof.
  unfold leave_directory, seal. cbn. by rewrite <- app_assoc.
Qed.

Lemma latest_version_sealed (repository_pk : string)
    (vs : gmap string (list RepositoryVersion.t))
    (l : list RepositoryVersion.t) (v : RepositoryVersion.t)
    (p : option (string * RepositoryVersion.t)) (tr : list Event) :
  latest_version repository_pk
    (mkState (<[repository_pk := (l ++ [v])%list]> vs) p tr) = Some v.
Proof.
  unfold latest_version. cbn [versions].
  rewrite lookup_total_insert_eq. apply last_snoc.
Qed.

Lemma sync_body_run (BATCH : nat) (w : World) (importer : FileImporter.t)
    (repository : Repository.t) (base : option RepositoryVersion.t)
    (new_version : RepositoryVersion.t) (s : State) (pk : string)
    (v : RepositoryVersion.t) :
  provisional s = Some (pk, v) ->
  sync_body BATCH w importer repository base new_version s
  = let tr := (trace s ++ [LogInfo (Repository.name repository)
                                   (FileImporter.name importer);
                           Download (FileImporter.feed_url importer)])%list in
    match downloader_fetch w (FileImporter.feed_url importer) with
    | Raise e => (mkState (versions s) (provisional s) tr, Raise e)
    | Ok p =>
        let manifest := manifest_file w p in
        let delta := find_delta manifest (fetch_content base) true in
        match build_additions importer manifest delta with
        | Raise e => (mkState (versions s) (provisional s) tr, Raise e)
        | Ok adds =>
            let plan := plan_changes adds (build_removals BATCH base delta) in
            let '(content', (reports, e)) :=
              apply_changes (outcome w) (fst plan) (RepositoryVersion.content v) in
            (mkState (versions s)
                     (Some (pk, RepositoryVersion.mk (RepositoryVersion.number v)
                                                     content'))
                     (tr ++ debug_events w repository importer reports)%list,
             match e with
             | Some x => Raise x
             | None => match snd plan with
                       | Some x => Raise x
                       | None => Ok tt
                       end
             end)
        end
    end.
Proof.
  intros Hp. unfold sync_body, fetch_manifest, bind, emit, lift, ret. cbn.
  rewrite <- !app_assoc. cbn.
  destruct (downloader_fetch w (FileImporter.feed_url importer)) as [p | e];
    [| done].
  destruct (build_additions importer _ _) as [adds | e]; [| done].
  unfold apply_and_log, changeset_apply, bind. cbn. rewrite Hp.
  destruct (apply_changes _ _ _) as [content' [reports e]].
  unfold for_gen, bind. rewrite for_each_log. cbn.
  destruct e as [x |]; [done |].
  destruct (snd (plan_changes _ _)); done.
Qed.

Lemma synchronize_unknown_importer (BATCH : nat) (w : World)
    (importer_pk repository_pk : string) (s : State) :
  importers w !! importer_pk = None ->
  synchronize BATCH w importer_pk repository_pk s = (s, Raise DoesNotExist).
Proof.
  intros Hi. unfold synchronize, bind, objects_get. by rewrite Hi.
Qed.

Lemma synchronize_unknown_repository (BATCH : nat) (w : World)
    (importer_pk repository_pk : string) (s : State)
    (importer : FileImporter.t) :
  importers w !! importer_pk = Some importer ->
  repositories w !! repository_pk = None ->
  synchronize BATCH w importer_pk repository_pk s = (s, Raise DoesNotExist).
Proof.
  intros Hi Hr. unfold synchronize, bind, objects_get. by rewrite Hi, Hr.
Qed.

Section Run.

Variable BATCH : nat.
Variable w : World.
Variables importer_pk repository_pk : string.
Variable s : State.
Variable importer : FileImporter.t.
Variable repository : Repository.t.

Hypothesis Himporter : importers w !! importer_pk = Some importer.
Hypothesis Hrepository : repositories w !! repository_pk = Some repository.

Local Abbreviation base := (latest_version repository_pk s).
Local Abbreviation run := (synchronize BATCH w importer_pk repository_pk s).
Local Abbreviation opened := (opening s repository_pk repository importer).

(** The two [with] blocks around the body. *)
Lemma synchronize_run :
  truthy (FileImporter.feed_url importer) = true ->
  let new_version := next_version base in
  let s1 :=
    mkState (versions s) (Some (repository_pk, new_version))
            (trace s ++ [EnterWorkingDirectory;
                         CreateVersion repository_pk
                           (RepositoryVersion.number new_version)])%list in
  run
  = match sync_body BATCH w importer repository base new_version s1 with
    | (s2, Ok a) => (leave_directory (seal s2), Ok a)
    | (s2, Raise e) => (leave_directory (discard s2), Raise e)
    end.
Proof.
  intros Ht new_version s1.
  unfold synchronize, bind, objects_get, latest.
  rewrite Himporter, Hrepository.
  unfold ret. cbv beta iota. rewrite Ht. cbv beta iota delta [negb].
  unfold with_working_directory, with_new_version, emit. cbv beta iota zeta.
  change (latest_version repository_pk (mkState (versions s) (provisional s)
            (trace s ++ [EnterWorkingDirectory])%list)) with base.
  fold new_version. cbn [versions provisional trace].
  rewrite <- app_assoc. cbn [app]. fold s1.
  destruct (sync_body BATCH w importer repository base new_version s1)
    as [s2 [a | e]]; reflexivity.
Qed.

(** Every way a run goes once [feed_url] is set. *)
Lemma synchronize_cases :
  truthy (FileImporter.feed_url importer) = true ->
  run
  = match downloader_fetch w (FileImporter.feed_url importer) with
    | Raise e => (aborted s repository_pk opened, Raise e)
    | Ok p =>
        let manifest := manifest_file w p in
        let delta := find_delta manifest (fetch_content base) true in
        match build_additions importer manifest delta with
        | Raise e => (aborted s repository_pk opened, Raise e)
        | Ok adds =>
            let plan := plan_changes adds (build_removals BATCH base delta) in
            let applied :=
              apply_changes (outcome w) (fst plan)
                (RepositoryVersion.content (next_version base)) in
            let mid :=
              (opened
               ++ debug_events w repository importer (fst (snd applied)))%list in
            match snd (snd applied), snd plan with
            | None, None =>
                (committed s repository_pk (fst applied) mid, Ok tt)
            | Some e, _ | None, Some e =>
                (aborted s repository_pk mid, Raise e)
            end
        end
    end.
Proof.
  intros Ht. rewrite (synchronize_run Ht). cbv zeta.
  erewrite sync_body_run by reflexivity. cbv zeta.
  cbn [versions provisional trace].
  destruct (downloader_fetch w (FileImporter.feed_url importer)) as [p | e].
  2: { rewrite leave_discard. unfold aborted, opening.
       rewrite <- !app_assoc. reflexivity. }
  destruct (build_additions importer _ _) as [adds | e].
  2: { rewrite leave_discard. unfold aborted, opening.
       rewrite <- !app_assoc. reflexivity. }
  destruct (apply_changes _ _ _) as [content' [reports e]].
  cbn [fst snd].
  destruct e as [e |]; [| destruct (snd (plan_changes _ _)) as [e |]].
  - rewrite leave_discard. unfold aborted, opening.
    rewrite <- !app_assoc. reflexivity.
  - rewrite leave_discard. unfold aborted, opening.
    rewrite <- !app_assoc. reflexivity.
  - rewrite leave_seal. unfold committed, opening.
    rewrite <- !app_assoc. reflexivity.
Qed.

(** The run once the manifest is fetched and the feed URL parsed: the plan
    is the mirror plan, and the version is sealed unless the engine raised. *)
Lemma synchronize_applies (feed p : string) (parsed : urllib.ParseResult) :
  FileImporter.feed_url importer = Some feed ->
  PyStr.is_empty feed = false ->
  urllib.urlparse feed = Ok parsed ->
  downloader_fetch w (Some feed) = Ok p ->
  let manifest := manifest_file w p in
  let delta := find_delta manifest (fetch_content base) true in
  let changes :=
    (map Add (generate_additions parsed
                (os_path.dirname (urllib.path parsed)) manifest delta)
     ++ map Remove (fst (generate_removals BATCH base delta)))%list in
  let applied :=
    apply_changes (outcome w) changes
      (RepositoryVersion.content (next_version base)) in
  let mid :=
    (opened ++ debug_events w repository importer (fst (snd applied)))%list in
  run
  = match snd (snd applied) with
    | Some e => (aborted s repository_pk mid, Raise e)
    | None => (committed s repository_pk (fst applied) mid, Ok tt)
    end.
Proof.
  intros Hf Hne Hp Hd manifest delta changes applied mid.
  assert (Ht : truthy (FileImporter.feed_url importer) = true)
    by (by rewrite Hf; cbn; rewrite Hne).
  rewrite (synchronize_cases Ht), Hf, Hd. cbv zeta.
  fold manifest. fold delta.
  rewrite (build_additions_ok importer manifest delta feed parsed Hf Hp).
  unfold plan_changes, chain, gen_map, build_removals.
  cbn [iterable fst snd].
  assert (Hnr : snd (generate_removals BATCH base delta) = None)
    by apply generate_removals_no_raise.
  rewrite Hnr. fold changes. fold applied. fold mid.
  by destruct (snd (snd applied)).
Qed.

Ltac engine_never_raises Hoc He Hm :=
  match goal with
  | |- context [apply_changes (outcome ?w) ?cs ?c0] =>
      destruct (apply_changes_reports (outcome w) cs c0 Hoc) as [He Hm]
  end.

(** *** Configuration and transport errors *)

(** C9: when the importer and the repository exist and the importer's
    feed_url is None or the empty string, synchronize raises ValueError and
    leaves the state as it was: nothing is downloaded, no working directory
    is entered, no version is created and nothing is logged. *)
Theorem missing_feed_url_is_fatal :
  FileImporter.feed_url importer = None
  \/ FileImporter.feed_url importer = Some "" ->
  run = (s, Raise (ValueError
                     "An importer must have a feed_url specified to synchronize.")).
Proof.
  intros Hf%truthy_false.
  unfold synchronize, bind, objects_get, latest.
  rewrite Himporter, Hrepository.
  unfold ret. cbv beta iota. by rewrite Hf.
Qed.

(** C5, amended: when the importer and the repository exist, feed_url is set
    and the download of the manifest raises, synchronize raises the same
    exception. The version was created open before the download was
    attempted; it is discarded and never sealed, the sealed versions of every
    repository are what they were, so is the latest version, and the working
    directory is left. *)
Theorem manifest_fetch_failure_discards (e : Exception) :
  truthy (FileImporter.feed_url importer) = true ->
  downloader_fetch w (FileImporter.feed_url importer) = Raise e ->
  run = (aborted s repository_pk opened, Raise e) /\
  versions (fst run) = versions s /\
  provisional (fst run) = None /\
  latest_version repository_pk (fst run) = base /\
  trace (fst run)
  = (trace s
     ++ [EnterWorkingDirectory;
         CreateVersion repository_pk
           (RepositoryVersion.number (next_version base));
         LogInfo (Repository.name repository) (FileImporter.name importer);
         Download (FileImporter.feed_url importer);
         DiscardVersion repository_pk
           (RepositoryVersion.number (next_version base));
         ExitWorkingDirectory])%list.
Proof.
  intros Ht He. rewrite (synchronize_cases Ht), He.
  repeat split; reflexivity.
Qed.

(** *** Failures during apply *)

(** C3, amended: the reports of the apply phase are only logged. When an
    exception propagates out of the run (from the manifest download, the
    parse of the feed URL or the apply engine), the version created open is
    discarded and never sealed and the sealed versions are what they were.
    When the manifest is fetched, the feed URL parses and the engine raises
    on no item, the run ends normally and seals the new version, whatever the
    per-item reports say. *)
Theorem reports_are_only_logged :
  truthy (FileImporter.feed_url importer) = true ->
  (forall e, snd run = Raise e ->
     exists mid, fst run = aborted s repository_pk mid) /\
  (forall feed p parsed,
     FileImporter.feed_url importer = Some feed ->
     urllib.urlparse feed = Ok parsed ->
     downloader_fetch w (Some feed) = Ok p ->
     (forall c, raises (outcome w c) = false) ->
     exists content mid,
       run = (committed s repository_pk content mid, Ok tt)).
Proof.
  intros Ht. split.
  - intros e. rewrite (synchronize_cases Ht). cbv zeta.
    destruct (downloader_fetch w (FileImporter.feed_url importer)) as [p | e1];
      [| by eexists].
    destruct (build_additions importer _ _) as [adds | e1]; [| by eexists].
    destruct (snd (snd (apply_changes _ _ _))) as [e1 |]; [by eexists |].
    destruct (snd (plan_changes _ _)) as [e1 |]; [by eexists | discriminate].
  - intros feed p parsed Hf Hp Hd Hoc.
    rewrite (synchronize_applies feed p parsed Hf
               (truthy_true _ _ Hf Ht) Hp Hd).
    cbv zeta. engine_never_raises Hoc He Hm. rewrite He. by eexists _, _.
Qed.

(** *** The committed version *)

(** C2, amended: when the manifest is fetched, the feed URL parses and the
    engine applies every change of the plan, synchronize ends normally and
    seals one new version of the repository, which becomes its latest; the
    key set of that version is (base keys - removals) + additions for the
    delta of the run, and is the key set of the remote manifest (the task
    always computes the delta with mirror on). *)
Theorem committed_version_content (feed p : string)
    (parsed : urllib.ParseResult) :
  0 < BATCH ->
  FileImporter.feed_url importer = Some feed ->
  PyStr.is_empty feed = false ->
  urllib.urlparse feed = Ok parsed ->
  downloader_fetch w (Some feed) = Ok p ->
  (forall c, outcome w c = Applied) ->
  let base_keys := fetch_content base in
  let manifest := manifest_file w p in
  let delta := find_delta manifest base_keys true in
  exists v mid,
    run = (committed s repository_pk (RepositoryVersion.content v) mid, Ok tt) /\
    latest_version repository_pk (fst run) = Some v /\
    versions (fst run) !!! repository_pk
    = (versions s !!! repository_pk ++ [v])%list /\
    fetch_content (Some v) = (base_keys ∖ removals delta) ∪ additions delta /\
    fetch_content (Some v) = manifest_keys manifest.
Proof.
  intros HB Hf Hne Hp Hd Hoc base_keys manifest delta.
  rewrite (synchronize_applies feed p parsed Hf Hne Hp Hd). cbv zeta.
  fold manifest. fold base_keys. fold delta.
  assert (Hoc' : forall c, raises (outcome w c) = false)
    by (by intros c; rewrite Hoc).
  engine_never_raises Hoc' He Hm. rewrite He.
  rewrite apply_changes_all_applied by done.
  eexists (RepositoryVersion.mk _ _), _.
  split; [reflexivity |].
  split; [apply latest_version_sealed |].
  split; [cbn; apply lookup_total_insert_eq |].
  assert (Hkeys := plan_result_keys BATCH base manifest true parsed
                     (os_path.dirname (urllib.path parsed)) HB).
  cbv zeta in Hkeys. fold base_keys in Hkeys. fold delta in Hkeys.
  split; [exact Hkeys |].
  etransitivity; [exact Hkeys | apply mirror_result_keys].
Qed.

(** *** The entry point's options *)

(** C6, amended: synchronize takes the importer reference and the repository
    reference and nothing else. For every importer, repository and state,
    once the manifest is fetched and the feed URL parsed, the changes it
    hands to the engine (as the DEBUG log shows them when the engine raises
    on none) are the additions of the mirror delta followed by the records
    that the removal lookups of the mirror delta resolve; the removals are
    all local keys absent from the manifest, and each lookup batch holds at
    most BatchIterator's own default number of keys. *)
Theorem synchronize_plan_is_fixed (feed p : string)
    (parsed : urllib.ParseResult) :
  FileImporter.feed_url importer = Some feed ->
  PyStr.is_empty feed = false ->
  urllib.urlparse feed = Ok parsed ->
  downloader_fetch w (Some feed) = Ok p ->
  debug_enabled w = true ->
  (forall c, raises (outcome w c) = false) ->
  let manifest := manifest_file w p in
  let delta := find_delta manifest (fetch_content base) true in
  map change (logged_reports (trace (fst run)))
  = (map change (logged_reports (trace s))
     ++ map Add (generate_additions parsed
                   (os_path.dirname (urllib.path parsed)) manifest delta)
     ++ map Remove (fst (generate_removals BATCH base delta)))%list /\
  removals delta = fetch_content base ∖ manifest_keys manifest /\
  (forall b, b ∈ BatchIterator (elements (removals delta)) BATCH ->
             List.length b <= BATCH).
Proof.
  intros Hf Hne Hp Hd Hdbg Hoc manifest delta.
  split; [| split; [reflexivity | intros b; apply batch_loop_size]].
  rewrite (synchronize_applies feed p parsed Hf Hne Hp Hd). cbv zeta.
  fold manifest. fold delta.
  engine_never_raises Hoc He Hm. rewrite He.
  unfold committed. cbn [fst trace].
  rewrite !logged_reports_app, (logged_reports_debug _ _ _ _ Hdbg).
  change (logged_reports opened) with (@nil ChangeReport).
  cbn [logged_reports flat_map app]. rewrite app_nil_r, map_app, Hm.
  reflexivity.
Qed.

End Run.

(** ** The scenarios, run *)

Lemma missing_feed_url_is_fatal_witness :
  synchronize 2
    (mkWorld {[ "I" := FileImporter.mk "files" (Some "") ]}
             {[ "R" := Scenario.repository ]}
             (fun _ => Ok "/tmp/PULP_MANIFEST") (fun _ => Scenario.remote)
             true (fun _ => Applied))
    "I" "R" Scenario.store
  = (Scenario.store,
     Raise (ValueError
              "An importer must have a feed_url specified to synchronize.")).
Proof.
  apply (missing_feed_url_is_fatal 2 _ "I" "R" Scenario.store
           (FileImporter.mk "files" (Some "")) Scenario.repository).
  - reflexivity.
  - reflexivity.
  - right. reflexivity.
Defined.

(** C5 as stated fails: with a downloader that raises a transport error, the
    run raises it, and its trace shows version 2 of the repository created
    before the download is attempted. *)
Lemma version_created_before_fetch :
  let w := Scenario.world (Raise (CollaboratorError "transport"))
                          Scenario.remote (fun _ => Applied) in
  let run := synchronize 2 w "I" "R" Scenario.store in
  snd run = Raise (CollaboratorError "transport") /\
  trace (fst run)
  = [EnterWorkingDirectory; CreateVersion "R" 2; LogInfo "repo" "files";
     Download (Some Scenario.feed); DiscardVersion "R" 2;
     ExitWorkingDirectory].
Proof. split; vm_compute; reflexivity. Qed.

Lemma manifest_fetch_failure_discards_witness :
  let w := Scenario.world (Raise (CollaboratorError "transport"))
                          Scenario.remote (fun _ => Applied) in
  versions (fst (synchronize 2 w "I" "R" Scenario.store))
  = versions Scenario.store /\
  latest_version "R" (fst (synchronize 2 w "I" "R" Scenario.store))
  = Some Scenario.base.
Proof.
  intros w.
  destruct (manifest_fetch_failure_discards 2 w "I" "R" Scenario.store
              Scenario.importer Scenario.repository eq_refl eq_refl
              (CollaboratorError "transport") eq_refl eq_refl)
    as (_ & H1 & _ & H2 & _).
  split; [exact H1 | exact H2].
Defined.

(** C3 as stated fails: in the example scenario, with DEBUG logging on and an
    engine that reports the addition of (c, 3) as failed, the log shows the
    failed report, yet the run ends normally and the partial version 2 is
    sealed and is the latest version of the repository. *)
Lemma sync_seals_after_failed_report :
  let w := Scenario.world (Ok "/tmp/PULP_MANIFEST") Scenario.remote
                          Scenario.additions_fail in
  let run := synchronize 2 w "I" "R" Scenario.store in
  map succeeded (logged_reports (trace (fst run))) = [false; true] /\
  snd run = Ok tt /\
  SealVersion "R" 2 ∈ trace (fst run) /\
  latest_version "R" (fst run)
  = Some (RepositoryVersion.mk 2 [Scenario.b2]).
Proof.
  split; [vm_compute; reflexivity |]. split; [vm_compute; reflexivity |].
  split; [| vm_compute; reflexivity].
  apply list_elem_of_In. vm_compute. tauto.
Qed.

Lemma reports_are_only_logged_witness :
  let w := Scenario.world (Ok "/tmp/PULP_MANIFEST") Scenario.remote
                          Scenario.additions_fail in
  exists content mid,
    synchronize 2 w "I" "R" Scenario.store
    = (committed Scenario.store "R" content mid, Ok tt).
Proof.
  intros w.
  destruct (reports_are_only_logged 2 w "I" "R" Scenario.store
              Scenario.importer Scenario.repository
              eq_refl eq_refl eq_refl) as [_ H].
  apply (H Scenario.feed "/tmp/PULP_MANIFEST"
           (urllib.mkParseResult "http" "host" "/repo/PULP_MANIFEST" "" "" "")
           eq_refl eq_refl eq_refl).
  intros [c | f]; reflexivity.
Defined.

(** C2 as stated fails: in the example scenario, with an engine that reports
    the addition of (c, 3) as failed, the run ends normally and seals
    version 2 holding (b, 2) alone, which is not (base - removals) + additions
    = {(b, 2), (c, 3)}. *)
Lemma committed_content_after_failed_addition :
  let w := Scenario.world (Ok "/tmp/PULP_MANIFEST") Scenario.remote
                          Scenario.additions_fail in
  let run := synchronize 2 w "I" "R" Scenario.store in
  let delta :=
    find_delta Scenario.remote (fetch_content (Some Scenario.base)) true in
  snd run = Ok tt /\
  latest_version "R" (fst run)
  = Some (RepositoryVersion.mk 2 [Scenario.b2]) /\
  fetch_content (Some (RepositoryVersion.mk 2 [Scenario.b2]))
  <> (fetch_content (Some Scenario.base) ∖ removals delta) ∪ additions delta.
Proof.
  split; [vm_compute; reflexivity |]. split; [vm_compute; reflexivity |].
  intros Heq.
  assert (Hin : mkKey "c" "3"
                ∈ fetch_content (Some (RepositoryVersion.mk 2 [Scenario.b2]))).
  { rewrite Heq. apply (bool_decide_unpack _). vm_compute. exact I. }
  revert Hin. apply (bool_decide_unpack _). vm_compute. exact I.
Qed.

Lemma committed_version_content_witness :
  let w := Scenario.world (Ok "/tmp/PULP_MANIFEST") Scenario.remote
                          (fun _ => Applied) in
  exists v,
    latest_version "R" (fst (synchronize 2 w "I" "R" Scenario.store)) = Some v /\
    fetch_content (Some v) = manifest_keys Scenario.remote.
Proof.
  intros w.
  destruct (committed_version_content 2 w "I" "R" Scenario.store
              Scenario.importer Scenario.repository eq_refl eq_refl
              Scenario.feed "/tmp/PULP_MANIFEST"
              (urllib.mkParseResult "http" "host" "/repo/PULP_MANIFEST"
                 "" "" ""))
    as (v & mid & _ & H2 & _ & _ & H5).
  - lia.
  - reflexivity.
  - reflexivity.
  - reflexivity.
  - reflexivity.
  - intros c. reflexivity.
  - exists v. split; [exact H2 | exact H5].
Defined.

(** The example scenario: base {(a,1), (b,2)}, remote {(b,2), (c,3)}. *)
Example example_scenario :
  let w := Scenario.world (Ok "/tmp/PULP_MANIFEST") Scenario.remote
                          (fun _ => Applied) in
  let delta :=
    find_delta Scenario.remote (fetch_content (Some Scenario.base)) true in
  elements (additions delta) = [mkKey "c" "3"] /\
  elements (removals delta) = [mkKey "a" "1"] /\
  latest_version "R" (fst (synchronize 2 w "I" "R" Scenario.store))
  = Some (RepositoryVersion.mk 2 [Scenario.b2; Scenario.c3]).
Proof. repeat split; vm_compute; reflexivity. Qed.

(** A first sync, without a base version, imports the whole manifest. *)
Example first_sync :
  let w := Scenario.world (Ok "/tmp/PULP_MANIFEST") Scenario.remote
                          (fun _ => Applied) in
  latest_version "R" (fst (synchronize 2 w "I" "R" Scenario.empty_store))
  = Some (RepositoryVersion.mk 1 [Scenario.b2; Scenario.c3]).
Proof. vm_compute. reflexivity. Qed.

(** C6 as stated fails: with the local-only units (a, 1) and (b, 2) and an
    empty remote manifest, a delta without mirror removes nothing, but no
    pair of arguments of synchronize gives a run that ends normally and
    keeps (a, 1) in the latest version: the entry point has no option that
    turns mirror off. *)
Lemma no_additive_synchronize :
  let w := Scenario.world (Ok "/tmp/PULP_MANIFEST") [] (fun _ => Applied) in
  removals (find_delta [] (fetch_content (Some Scenario.base)) false) = ∅ /\
  ~ exists importer_pk repository_pk committed,
      snd (synchronize 2 w importer_pk repository_pk Scenario.store) = Ok tt /\
      latest_version "R"
        (fst (synchronize 2 w importer_pk repository_pk Scenario.store))
      = Some committed /\
      Scenario.a1 ∈ RepositoryVersion.content committed.
Proof.
  intros w. split; [reflexivity |].
  intros (importer_pk & repository_pk & committed & H1 & H2 & H3).
  destruct (decide (importer_pk = "I")) as [-> | Hi].
  2: { rewrite synchronize_unknown_importer in H1; [discriminate |].
       by apply lookup_singleton_ne. }
  destruct (decide (repository_pk = "R")) as [-> | Hr].
  2: { rewrite (synchronize_unknown_repository 2 w "I" repository_pk
                  Scenario.store Scenario.importer) in H1;
         [discriminate | reflexivity | by apply lookup_singleton_ne]. }
  vm_compute in H2. injection H2 as <-.
  by apply elem_of_nil in H3.
Qed.

Lemma synchronize_plan_is_fixed_witness :
  let w := Scenario.world (Ok "/tmp/PULP_MANIFEST") [] (fun _ => Applied) in
  map change
      (logged_reports (trace (fst (synchronize 1 w "I" "R" Scenario.store))))
  = [Remove Scenario.a1; Remove Scenario.b2].
Proof.
  intros w.
  destruct (synchronize_plan_is_fixed 1 w "I" "R" Scenario.store
              Scenario.importer Scenario.repository eq_refl eq_refl
              Scenario.feed "/tmp/PULP_MANIFEST"
              (urllib.mkParseResult "http" "host" "/repo/PULP_MANIFEST"
                 "" "" "")
              eq_refl eq_refl eq_refl eq_refl eq_refl)
    as [H _].
  - intros c. reflexivity.
  - rewrite H. vm_compute. reflexivity.
Defined.

(** ** Further properties of the planners *)

Lemma BatchIterator_nil {A} (batch : nat) : BatchIterator (@nil A) batch = [].
Proof. by destruct batch. Qed.

Lemma BatchIterator_empty_iff {A} (batch : nat) (l : list A) :
  0 < batch -> BatchIterator l batch = [] <-> l = [].
Proof.
  intros Hb. split; [| intros ->; apply BatchIterator_nil].
  intros H. rewrite <- (BatchIterator_concat batch l Hb). by rewrite H.
Qed.

(** A first sync: without a base version the local key set is empty, every
    key of the manifest is an addition, nothing is a removal, and the removal
    plan is empty and raises nothing, whatever the mirror flag and the batch
    size. *)
Theorem first_sync_plan (BATCH : nat) (manifest : Manifest.t) (mirror : bool) :
  let delta := find_delta manifest (fetch_content None) mirror in
  additions delta = manifest_keys manifest /\
  removals delta = ∅ /\
  build_removals BATCH None delta = mkSizedIterable ([], None) 0.
Proof.
  intros delta.
  assert (Hr : removals delta = ∅).
  { subst delta. cbn. destruct mirror; [| done].
    apply difference_disjoint_L, disjoint_empty_l. }
  split; [| split; [exact Hr |]].
  - subst delta. cbn. fold (manifest_keys manifest).
    apply difference_empty_L.
  - unfold build_removals. rewrite Hr, size_empty. f_equal.
    subst delta. apply generate_removals_no_base.
Qed.

(** Without mirror the removal plan is empty: it yields nothing, reports the
    count 0 and raises nothing, for every base version (also none) and every
    batch size. *)
Theorem non_mirror_plans_no_removal (BATCH : nat)
    (base : option RepositoryVersion.t) (manifest : Manifest.t)
    (L : gset Key) :
  build_removals BATCH base (find_delta manifest L false)
  = mkSizedIterable ([], None) 0.
Proof.
  unfold build_removals, generate_removals. cbn [removals find_delta].
  rewrite size_empty, elements_empty, BatchIterator_nil.
  by destruct base.
Qed.

(** The removal plan yields exactly the records of the base version whose
    key is among the removals: a removal key without a record in the base
    version yields nothing, and no record outside the removals is yielded. *)
Theorem build_removals_membership (BATCH : nat) (v : RepositoryVersion.t)
    (delta : Delta) (f : FileContent.t) :
  0 < BATCH ->
  f ∈ fst (iterable (build_removals BATCH (Some v) delta)) <->
  f ∈ RepositoryVersion.content v /\ key_of_content f ∈ removals delta.
Proof.
  intros HB. cbn [build_removals iterable].
  rewrite (generate_removals_unbatched BATCH v delta HB).
  unfold unbatched_lookup. rewrite list_elem_of_filter. tauto.
Qed.

Lemma build_removals_membership_witness :
  FileContent.mk "a" "1"
  ∈ fst (iterable (build_removals 1 (Some Scenario.base)
                     (mkDelta ∅ {[ mkKey "a" "1"; mkKey "z" "0" ]}))).
Proof.
  apply (build_removals_membership 1 Scenario.base
           (mkDelta ∅ {[ mkKey "a" "1"; mkKey "z" "0" ]})
           (FileContent.mk "a" "1")).
  - lia.
  - split.
    + constructor.
    + apply (bool_decide_unpack _). vm_compute. exact I.
Defined.

(** Without a base version the removal generator yields nothing; it raises
    AttributeError exactly when there is at least one removal key. *)
Theorem build_removals_without_base (BATCH : nat) (delta : Delta) :
  0 < BATCH ->
  fst (iterable (build_removals BATCH None delta)) = [] /\
  (removals delta = ∅ ->
   snd (iterable (build_removals BATCH None delta)) = None) /\
  (removals delta <> ∅ ->
   snd (iterable (build_removals BATCH None delta)) = Some AttributeError).
Proof.
  intros HB. cbn [build_removals iterable generate_removals fst snd].
  split; [reflexivity |]. split.
  - intros ->. by rewrite elements_empty, BatchIterator_nil.
  - intros Hne.
    destruct (BatchIterator (elements (removals delta)) BATCH) eqn:E;
      [| reflexivity].
    apply (BatchIterator_empty_iff BATCH (elements (removals delta)) HB) in E.
    apply elements_empty_inv in E. destruct Hne. by apply leibniz_equiv.
Qed.

Lemma build_removals_without_base_witness :
  snd (iterable (build_removals 3 None (mkDelta ∅ {[ mkKey "a" "1" ]})))
  = Some AttributeError.
Proof.
  apply (build_removals_without_base 3 (mkDelta ∅ {[ mkKey "a" "1" ]})).
  - lia.
  - apply (bool_decide_unpack _). vm_compute. exact I.
Defined.

(** Whatever the delta, an item comes out of build_additions only for a
    manifest entry whose key is among the additions; it carries one artifact,
    whose digest and relative path are the digest and path of the content
    unit and whose size is the entry's. *)
Theorem build_additions_items (importer : FileImporter.t)
    (manifest : Manifest.t) (delta : Delta)
    (planned : SizedIterable PendingContent.t) (item : PendingContent.t) :
  build_additions importer manifest delta = Ok planned ->
  item ∈ fst (iterable planned) ->
  key_of_content (PendingContent.model item) ∈ additions delta /\
  exists entry artifact,
    entry ∈ Manifest.read manifest /\
    PendingContent.model item
    = FileContent.mk (Entry.path entry) (Entry.digest entry) /\
    PendingContent.artifacts item = [artifact] /\
    Artifact.sha256 (PendingArtifact.model artifact)
    = FileContent.digest (PendingContent.model item) /\
    Artifact.size (PendingArtifact.model artifact) = Entry.size entry /\
    PendingArtifact.relative_path artifact
    = FileContent.path (PendingContent.model item).
Proof.
  unfold build_additions.
  destruct (FileImporter.feed_url importer) as [feed |].
  - destruct (urllib.urlparse feed) as [parsed | e]; cbn; [| done].
    intros [= <-]. cbn [iterable fst].
    intros (entry & Hin & Hk & ->)%generate_additions_elem.
    split; [exact Hk |]. by eexists entry, _.
  - intros [= <-]. cbn. by intros ?%elem_of_nil.
Qed.

Lemma build_additions_items_witness :
  key_of_content
    (PendingContent.model
       (pending_content
          (urllib.mkParseResult "http" "host" "/repo/PULP_MANIFEST" "" "" "")
          "/repo" (Entry.mk "c" "3" 30)))
  ∈ additions (find_delta Scenario.remote
                 (fetch_content (Some Scenario.base)) true).
Proof.
  apply (build_additions_items Scenario.importer Scenario.remote
           (find_delta Scenario.remote (fetch_content (Some Scenario.base)) true)
           (mkSizedIterable
              (generate_additions
                 (urllib.mkParseResult "http" "host" "/repo/PULP_MANIFEST"
                    "" "" "")
                 "/repo" Scenario.remote
                 (find_delta Scenario.remote
                    (fetch_content (Some Scenario.base)) true), None)
              1)).
  - vm_compute. reflexivity.
  - apply list_elem_of_In. vm_compute. tauto.
Defined.

(** For the delta of a manifest, the count that build_additions reports
    never exceeds the number of items its generator yields, and the two agree
    when the manifest has one record per key: the items are then one per
    addition key. *)
Theorem build_additions_count (importer : FileImporter.t)
    (manifest : Manifest.t) (L : gset Key) (mirror : bool) (feed : string)
    (parsed : urllib.ParseResult) :
  FileImporter.feed_url importer = Some feed ->
  urllib.urlparse feed = Ok parsed ->
  let delta := find_delta manifest L mirror in
  exists planned,
    build_additions importer manifest delta = Ok planned /\
    length planned <= List.length (fst (iterable planned)) /\
    (NoDup (map key_of_entry (Manifest.read manifest)) ->
     List.length (fst (iterable planned)) = length planned /\
     map (fun item => key_of_content (PendingContent.model item))
         (fst (iterable planned))
     ≡ₚ elements (additions delta)).
Proof.
  intros Hf Hp delta. eexists.
  split; [by apply (build_additions_ok _ _ _ feed) |].
  cbn [iterable length fst].
  set (root := os_path.dirname (urllib.path parsed)).
  set (keys := map (fun item => key_of_content (PendingContent.model item))
                   (generate_additions parsed root manifest delta)).
  assert (Hlen : List.length keys
                 = List.length (generate_additions parsed root manifest delta))
    by apply length_map.
  split.
  - rewrite <- Hlen. change (size (additions delta))
      with (List.length (elements (additions delta))).
    apply submseteq_length, NoDup_submseteq; [apply NoDup_elements |].
    intros k Hk%elem_of_elements.
    pose proof (additions_item_keys parsed root manifest L mirror) as Heq.
    cbv zeta in Heq. fold delta in Heq. rewrite <- Heq in Hk.
    by apply elem_of_list_to_set in Hk.
  - intros Hnd.
    assert (Hperm : keys ≡ₚ elements (additions delta))
      by (by apply generate_additions_one_per_key).
    split; [| exact Hperm].
    rewrite <- Hlen, Hperm. reflexivity.
Qed.

Lemma build_additions_count_witness :
  exists planned,
    build_additions Scenario.importer Scenario.duplicated
      (find_delta Scenario.duplicated ∅ true) = Ok planned /\
    length planned <= List.length (fst (iterable planned)).
Proof.
  destruct (build_additions_count Scenario.importer Scenario.duplicated ∅ true
              Scenario.feed
              (urllib.mkParseResult "http" "host" "/repo/PULP_MANIFEST"
                 "" "" "")
              eq_refl eq_refl) as (planned & H1 & H2 & _).
  exists planned. split; [exact H1 | exact H2].
Defined.

(** An entry whose path is absolute is not placed under the directory of the
    feed URL: its fetch URL is the feed URL with the entry's own path. *)
Theorem absolute_entry_path (importer : FileImporter.t)
    (manifest : Manifest.t) (delta : Delta) (feed : string)
    (parsed : urllib.ParseResult) (entry : Entry.t) :
  FileImporter.feed_url importer = Some feed ->
  urllib.urlparse feed = Ok parsed ->
  entry ∈ Manifest.read manifest ->
  key_of_entry entry ∈ additions delta ->
  PyStr.startswith "/" (Entry.path entry) = true ->
  exists planned,
    build_additions importer manifest delta = Ok planned /\
    PendingContent.mk
      (FileContent.mk (Entry.path entry) (Entry.digest entry))
      [PendingArtifact.mk
         (Artifact.mk (Entry.size entry) (Entry.digest entry))
         (urllib.urlunparse (urllib.replace_path parsed (Entry.path entry)))
         (Entry.path entry)]
    ∈ fst (iterable planned).
Proof.
  intros Hf Hp Hin Hk Habs. eexists.
  split; [by apply (build_additions_ok _ _ _ feed) |].
  cbn [iterable fst]. apply generate_additions_elem. exists entry.
  split; [done |]. split; [done |].
  unfold pending_content, os_path.join.
  change (String os_path.sep EmptyString) with "/". by rewrite Habs.
Qed.

Lemma absolute_entry_path_witness :
  exists planned,
    build_additions Scenario.importer [Entry.mk "/pub/file.iso" "7" 7]
      (find_delta [Entry.mk "/pub/file.iso" "7" 7] ∅ true) = Ok planned /\
    PendingContent.mk
      (FileContent.mk "/pub/file.iso" "7")
      [PendingArtifact.mk (Artifact.mk 7 "7")
         "http://host/pub/file.iso" "/pub/file.iso"]
    ∈ fst (iterable planned).
Proof.
  apply (absolute_entry_path Scenario.importer
           [Entry.mk "/pub/file.iso" "7" 7]
           (find_delta [Entry.mk "/pub/file.iso" "7" 7] ∅ true)
           Scenario.feed
           (urllib.mkParseResult "http" "host" "/repo/PULP_MANIFEST" "" "" "")
           (Entry.mk "/pub/file.iso" "7" 7)).
  - reflexivity.
  - reflexivity.
  - constructor.
  - apply (bool_decide_unpack _). vm_compute. exact I.
  - reflexivity.
Defined.

Lemma startswith_slash_cons (a : ascii) (s : string) :
  PyStr.startswith "/" (String a s) = Ascii.eqb a "/".
Proof.
  unfold PyStr.startswith.
  change (String.prefix "/" (String a s))
    with (if ascii_dec "/" a then String.prefix "" s else false).
  destruct (ascii_dec "/" a) as [<- | Hne].
  - by destruct s.
  - symmetry. apply Ascii.eqb_neq. congruence.
Qed.

Lemma dirname_at_root (name : string) :
  PyStr.contains os_path.sep name = false ->
  os_path.dirname ("/" ++ name) = "/".
Proof.
  intros Hn. unfold os_path.dirname.
  change ("/" ++ name) with (EmptyString ++ String os_path.sep name).
  rewrite (rpartition_last os_path.sep EmptyString name Hn). reflexivity.
Qed.

Lemma dirname_no_directory (name : string) :
  PyStr.contains os_path.sep name = false -> os_path.dirname name = "".
Proof.
  intros Hn. unfold os_path.dirname.
  by rewrite (rpartition_absent os_path.sep name Hn).
Qed.

(** A manifest at the top of its host, or a feed URL whose path has no
    directory at all: a relative entry path is fetched from the root path
    [/entry] in the first case and from the bare entry path in the second. *)
Theorem fetch_path_without_directory (importer : FileImporter.t)
    (manifest : Manifest.t) (delta : Delta) (feed : string)
    (parsed : urllib.ParseResult) (entry : Entry.t) (name : string) :
  FileImporter.feed_url importer = Some feed ->
  urllib.urlparse feed = Ok parsed ->
  entry ∈ Manifest.read manifest ->
  key_of_entry entry ∈ additions delta ->
  PyStr.contains os_path.sep name = false ->
  PyStr.startswith "/" (Entry.path entry) = false ->
  urllib.path parsed = "/" ++ name \/ urllib.path parsed = name ->
  let fetch_path :=
    if PyStr.startswith "/" (urllib.path parsed)
    then "/" ++ Entry.path entry else Entry.path entry in
  exists planned,
    build_additions importer manifest delta = Ok planned /\
    PendingContent.mk
      (FileContent.mk (Entry.path entry) (Entry.digest entry))
      [PendingArtifact.mk
         (Artifact.mk (Entry.size entry) (Entry.digest entry))
         (urllib.urlunparse (urllib.replace_path parsed fetch_path))
         (Entry.path entry)]
    ∈ fst (iterable planned).
Proof.
  intros Hf Hp Hin Hk Hn Hrel Hpath fetch_path. eexists.
  split; [by apply (build_additions_ok _ _ _ feed) |].
  cbn [iterable fst]. apply generate_additions_elem. exists entry.
  split; [done |]. split; [done |].
  unfold pending_content. do 4 f_equal. subst fetch_path.
  unfold os_path.join. change (String os_path.sep EmptyString) with "/".
  rewrite Hrel. destruct Hpath as [-> | ->].
  - rewrite (dirname_at_root name Hn).
    assert (PyStr.startswith "/" ("/" ++ name) = true) as ->
      by (by destruct name).
    reflexivity.
  - rewrite (dirname_no_directory name Hn).
    assert (PyStr.startswith "/" name = false) as ->; [| reflexivity].
    destruct name as [| a name]; [reflexivity |].
    cbn in Hn. apply orb_false_elim in Hn as [Ha _].
    rewrite startswith_slash_cons. exact Ha.
Qed.

Lemma fetch_path_without_directory_witness :
  exists planned,
    build_additions (FileImporter.mk "files" (Some "http://host/PULP_MANIFEST"))
      [Entry.mk "sub/file.iso" "7" 7]
      (find_delta [Entry.mk "sub/file.iso" "7" 7] ∅ true) = Ok planned /\
    PendingContent.mk
      (FileContent.mk "sub/file.iso" "7")
      [PendingArtifact.mk (Artifact.mk 7 "7")
         "http://host/sub/file.iso" "sub/file.iso"]
    ∈ fst (iterable planned).
Proof.
  apply (fetch_path_without_directory
           (FileImporter.mk "files" (Some "http://host/PULP_MANIFEST"))
           [Entry.mk "sub/file.iso" "7" 7]
           (find_delta [Entry.mk "sub/file.iso" "7" 7] ∅ true)
           "http://host/PULP_MANIFEST"
           (urllib.mkParseResult "http" "host" "/PULP_MANIFEST" "" "" "")
           (Entry.mk "sub/file.iso" "7" 7) "PULP_MANIFEST").
  - reflexivity.
  - reflexivity.
  - constructor.
  - apply (bool_decide_unpack _). vm_compute. exact I.
  - reflexivity.
  - reflexivity.
  - left. reflexivity.
Defined.

Lemma elem_of_manifest_keys (k : Key) (manifest : Manifest.t) :
  k ∈ manifest_keys manifest <->
  exists entry, entry ∈ Manifest.read manifest /\ key_of_entry entry = k.
Proof.
  unfold manifest_keys. rewrite elem_of_list_to_set.
  change (k ∈ key_of_entry <$> Manifest.read manifest
          <-> exists entry, entry ∈ Manifest.read manifest
                            /\ key_of_entry entry = k).
  rewrite list_elem_of_fmap. split; intros (e & H1 & H2); eauto.
Qed.

Lemma elem_of_fetch_content (k : Key) (v : RepositoryVersion.t) :
  k ∈ fetch_content (Some v) <->
  exists f, f ∈ RepositoryVersion.content v /\ key_of_content f = k.
Proof.
  change (fetch_content (Some v))
    with (content_keys (RepositoryVersion.content v)).
  rewrite elem_of_content_keys. split.
  - intros Hf. eexists. split; [exact Hf |]. apply key_of_content_mk.
  - intros (f & Hf & <-). by rewrite content_of_key.
Qed.

(** A file replaced under its path: when the base version holds one record
    for a path and the manifest lists one entry for that path with another
    digest, the new (path, digest) is planned as an addition and the old
    record is planned as a removal; there is no update in place. *)
Theorem replaced_file_is_added_and_removed (BATCH : nat)
    (importer : FileImporter.t) (manifest : Manifest.t)
    (v : RepositoryVersion.t) (feed : string) (parsed : urllib.ParseResult)
    (entry : Entry.t) (old : FileContent.t) :
  0 < BATCH ->
  FileImporter.feed_url importer = Some feed ->
  urllib.urlparse feed = Ok parsed ->
  entry ∈ Manifest.read manifest ->
  old ∈ RepositoryVersion.content v ->
  FileContent.path old = Entry.path entry ->
  FileContent.digest old <> Entry.digest entry ->
  (forall e, e ∈ Manifest.read manifest ->
             Entry.path e = Entry.path entry ->
             Entry.digest e = Entry.digest entry) ->
  (forall f, f ∈ RepositoryVersion.content v ->
             FileContent.path f = FileContent.path old ->
             FileContent.digest f = FileContent.digest old) ->
  let delta := find_delta manifest (fetch_content (Some v)) true in
  exists planned,
    build_additions importer manifest delta = Ok planned /\
    pending_content parsed (os_path.dirname (urllib.path parsed)) entry
      ∈ fst (iterable planned) /\
    old ∈ fst (iterable (build_removals BATCH (Some v) delta)).
Proof.
  intros HB Hf Hp Hin Hold Hpath Hdig Hone_remote Hone_local delta.
  assert (Hadd : key_of_entry entry ∈ additions delta).
  { subst delta. cbn [find_delta additions].
    fold (manifest_keys manifest). apply elem_of_difference. split.
    - apply elem_of_manifest_keys. by exists entry.
    - intros (f & Hfin & Hkey)%elem_of_fetch_content.
      injection Hkey as Hkp Hkd. apply Hdig.
      rewrite <- Hkd. symmetry. apply Hone_local; [done | congruence]. }
  assert (Hrem : key_of_content old ∈ removals delta).
  { subst delta. cbn [find_delta removals].
    fold (manifest_keys manifest). apply elem_of_difference. split.
    - apply elem_of_fetch_content. by exists old.
    - intros (e & Hein & Hkey)%elem_of_manifest_keys.
      injection Hkey as Hkp Hkd. apply Hdig.
      rewrite <- Hkd. apply Hone_remote; [done | congruence]. }
  eexists. split; [by apply (build_additions_ok _ _ _ feed) |]. split.
  - cbn [iterable fst]. apply generate_additions_elem. by exists entry.
  - cbn [build_removals iterable].
    rewrite (generate_removals_unbatched BATCH v delta HB).
    unfold unbatched_lookup. by apply list_elem_of_filter.
Qed.

Lemma replaced_file_is_added_and_removed_witness :
  FileContent.mk "a" "1"
  ∈ fst (iterable
           (build_removals 2 (Some Scenario.base)
              (find_delta [Entry.mk "a" "9" 10; Entry.mk "b" "2" 20]
                 (fetch_content (Some Scenario.base)) true))).
Proof.
  destruct (replaced_file_is_added_and_removed 2 Scenario.importer
              [Entry.mk "a" "9" 10; Entry.mk "b" "2" 20] Scenario.base
              Scenario.feed
              (urllib.mkParseResult "http" "host" "/repo/PULP_MANIFEST"
                 "" "" "")
              (Entry.mk "a" "9" 10) (FileContent.mk "a" "1"))
    as (planned & _ & _ & H).
  - lia.
  - reflexivity.
  - reflexivity.
  - constructor.
  - constructor.
  - reflexivity.
  - discriminate.
  - intros e He Hp. apply list_elem_of_In in He.
    destruct He as [<- | [<- | []]]; [reflexivity | discriminate].
  - intros f Hf Hp. apply list_elem_of_In in Hf.
    destruct Hf as [<- | [<- | []]]; [reflexivity | discriminate].
  - exact H.
Defined.

(** For the mirror delta of a base version without repeated records, the
    removal plan yields one record per removal key: the count it reports is
    the number of records its generator yields. *)
Theorem build_removals_count (BATCH : nat) (manifest : Manifest.t)
    (v : RepositoryVersion.t) :
  0 < BATCH ->
  NoDup (RepositoryVersion.content v) ->
  let delta := find_delta manifest (fetch_content (Some v)) true in
  let planned := build_removals BATCH (Some v) delta in
  map key_of_content (fst (iterable planned)) ≡ₚ elements (removals delta) /\
  List.length (fst (iterable planned)) = length planned.
Proof.
  intros HB Hnd delta planned.
  assert (Hperm : map key_of_content (fst (iterable planned))
                  ≡ₚ elements (removals delta)).
  { subst planned. cbn [build_removals iterable].
    rewrite (generate_removals_unbatched BATCH v delta HB).
    unfold unbatched_lookup. apply NoDup_Permutation.
    - assert (Hinj : Inj (=) (=) key_of_content)
        by (intros [p1 d1] [p2 d2]; cbn; by intros [= -> ->]).
      apply (NoDup_fmap_2 key_of_content). by apply NoDup_filter.
    - apply NoDup_elements.
    - intros k. rewrite elem_of_elements.
      change (k ∈ key_of_content
                  <$> filter (fun f => key_of_content f ∈ removals delta)
                             (RepositoryVersion.content v)
              <-> k ∈ removals delta).
      rewrite list_elem_of_fmap. split.
      + by intros (f & -> & [Hk _]%list_elem_of_filter).
      + intros Hk. assert (HL := Hk). subst delta.
        cbn [find_delta removals] in HL.
        apply elem_of_difference in HL as [HL _].
        apply elem_of_fetch_content in HL as (f & Hf & <-).
        exists f. split; [done |]. by apply list_elem_of_filter. }
  split; [exact Hperm |].
  change (length planned) with (List.length (elements (removals delta))).
  rewrite <- Hperm. symmetry. apply length_map.
Qed.

Lemma build_removals_count_witness :
  List.length
    (fst (iterable
            (build_removals 1 (Some Scenario.base)
               (find_delta [] (fetch_content (Some Scenario.base)) true))))
  = length (build_removals 1 (Some Scenario.base)
              (find_delta [] (fetch_content (Some Scenario.base)) true)).
Proof.
  apply (build_removals_count 1 [] Scenario.base).
  - lia.
  - apply (bool_decide_unpack _). vm_compute. exact I.
Defined.

(** ** Further properties of a run *)

(** An unknown importer or an unknown repository: the lookup raises
    DoesNotExist before anything else happens, also when the importer has no
    feed_url, and the state is left as it was. *)
Theorem unknown_reference_raises (BATCH : nat) (w : World)
    (importer_pk repository_pk : string) (s : State) :
  importers w !! importer_pk = None \/ repositories w !! repository_pk = None ->
  synchronize BATCH w importer_pk repository_pk s = (s, Raise DoesNotExist).
Proof.
  intros [Hi | Hr]; [by apply synchronize_unknown_importer |].
  destruct (importers w !! importer_pk) as [importer |] eqn:Hi.
  - by apply (synchronize_unknown_repository _ _ _ _ _ importer).
  - by apply synchronize_unknown_importer.
Qed.

Lemma unknown_reference_raises_witness :
  synchronize 2
    (mkWorld {[ "I" := FileImporter.mk "files" None ]} ∅
             (fun _ => Ok "/tmp/PULP_MANIFEST") (fun _ => Scenario.remote)
             true (fun _ => Applied))
    "I" "R" Scenario.store
  = (Scenario.store, Raise DoesNotExist).
Proof.
  apply unknown_reference_raises. right. reflexivity.
Defined.

Lemma synchronize_no_feed (BATCH : nat) (w : World)
    (importer_pk repository_pk : string) (s : State)
    (importer : FileImporter.t) (repository : Repository.t) :
  importers w !! importer_pk = Some importer ->
  repositories w !! repository_pk = Some repository ->
  truthy (FileImporter.feed_url importer) = false ->
  synchronize BATCH w importer_pk repository_pk s
  = (s, Raise (ValueError
                 "An importer must have a feed_url specified to synchronize.")).
Proof.
  intros Hi Hr Ht. unfold synchronize, bind, objects_get, latest.
  rewrite Hi, Hr. unfold ret. cbv beta iota. by rewrite Ht.
Qed.

Lemma debug_events_nil (w : World) (repository : Repository.t)
    (importer : FileImporter.t) :
  debug_events w repository importer [] = [].
Proof. unfold debug_events. by destruct (debug_enabled w). Qed.

Lemma generate_additions_empty (parsed : urllib.ParseResult) (root : string)
    (manifest : Manifest.t) (delta : Delta) :
  additions delta = ∅ ->
  generate_additions parsed root manifest delta = [].
Proof.
  intros He. apply elem_of_nil_inv. intros item.
  intros (entry & _ & Hk & _)%generate_additions_elem.
  rewrite He in Hk. by apply not_elem_of_empty in Hk.
Qed.

Lemma generate_removals_empty (BATCH : nat)
    (base : option RepositoryVersion.t) (delta : Delta) :
  removals delta = ∅ -> generate_removals BATCH base delta = ([], None).
Proof.
  intros He. unfold generate_removals.
  rewrite He, elements_empty, BatchIterator_nil. by destruct base.
Qed.

Lemma added_keys_plan (items : list PendingContent.t)
    (records : list FileContent.t) :
  added_keys (map Add items ++ map Remove records)
  = list_to_set
      (map (fun p => key_of_content (PendingContent.model p)) items).
Proof.
  unfold added_keys. induction items as [| p items IH]; cbn.
  - induction records as [| f records IHr]; [done | exact IHr].
  - by rewrite IH.
Qed.

Lemma removed_keys_plan (items : list PendingContent.t)
    (records : list FileContent.t) :
  removed_keys (map Add items ++ map Remove records) = content_keys records.
Proof.
  unfold removed_keys, content_keys.
  induction items as [| p items IH]; cbn; [| exact IH].
  induction records as [| f records IHr]; cbn; [done | by rewrite IHr].
Qed.

(** Whatever the engine makes of each change, the version it leaves keeps
    every key that no removal of the plan is about and holds no key beyond
    those it had and those the additions of the plan are about. *)
Lemma apply_changes_bounds (oc : Change -> Outcome) (changes : list Change)
    (content : list FileContent.t) :
  content_keys content ∖ removed_keys changes
  ⊆ content_keys (fst (apply_changes oc changes content)) /\
  content_keys (fst (apply_changes oc changes content))
  ⊆ content_keys content ∪ added_keys changes.
Proof.
  revert content. induction changes as [| c changes IH]; intros content.
  - cbn. split; set_solver.
  - cbn [apply_changes].
    assert (Hadd : added_keys (c :: changes)
                   = match c with
                     | Add p => {[ key_of_content (PendingContent.model p) ]}
                     | Remove _ => ∅
                     end ∪ added_keys changes).
    { destruct c; unfold added_keys; cbn; [done |].
      by rewrite union_empty_l_L. }
    assert (Hrem : removed_keys (c :: changes)
                   = match c with
                     | Add _ => ∅
                     | Remove f => {[ key_of_content f ]}
                     end ∪ removed_keys changes).
    { destruct c; unfold removed_keys; cbn; [| done].
      by rewrite union_empty_l_L. }
    rewrite Hadd, Hrem. clear Hadd Hrem.
    destruct (oc c) as [| | e].
    + specialize (IH (apply_change c content)).
      destruct (apply_changes oc changes _) as [content' [reports e]].
      cbn [fst] in *. destruct IH as [IH1 IH2].
      destruct c as [p | f].
      * rewrite content_keys_add in IH1, IH2.
        revert IH1 IH2. generalize (content_keys content')
          (content_keys content) (added_keys changes) (removed_keys changes).
        intros K X A R IH1 IH2. split; set_solver.
      * rewrite content_keys_remove in IH1, IH2.
        revert IH1 IH2. generalize (content_keys content')
          (content_keys content) (added_keys changes) (removed_keys changes).
        intros K X A R IH1 IH2. split; set_solver.
    + specialize (IH content).
      destruct (apply_changes oc changes _) as [content' [reports e]].
      cbn [fst] in *. destruct IH as [IH1 IH2].
      revert IH1 IH2. generalize (content_keys content')
        (content_keys content) (added_keys changes) (removed_keys changes).
      intros K X A R IH1 IH2. split; set_solver.
    + cbn [fst]. generalize (content_keys content)
        (added_keys changes) (removed_keys changes).
      intros X A R. split; set_solver.
Qed.

(** The run against a manifest whose keys the latest version already holds. *)
Lemma synchronize_unchanged (BATCH : nat) (w : World)
    (importer_pk repository_pk : string) (s : State)
    (importer : FileImporter.t) (repository : Repository.t)
    (feed p : string) (parsed : urllib.ParseResult) :
  importers w !! importer_pk = Some importer ->
  repositories w !! repository_pk = Some repository ->
  FileImporter.feed_url importer = Some feed ->
  PyStr.is_empty feed = false ->
  urllib.urlparse feed = Ok parsed ->
  downloader_fetch w (Some feed) = Ok p ->
  fetch_content (latest_version repository_pk s)
  = manifest_keys (manifest_file w p) ->
  synchronize BATCH w importer_pk repository_pk s
  = (committed s repository_pk
       (from_option RepositoryVersion.content []
          (latest_version repository_pk s))
       (opening s repository_pk repository importer),
     Ok tt).
Proof.
  intros Hi Hr Hf Hne Hp Hd Hsame.
  rewrite (synchronize_applies BATCH w importer_pk repository_pk s importer
             repository Hi Hr feed p parsed Hf Hne Hp Hd).
  cbv zeta.
  rewrite generate_additions_empty, generate_removals_empty.
  - cbn [map app apply_changes fst snd].
    rewrite debug_events_nil, app_nil_r.
    by destruct (latest_version repository_pk s).
  - cbn [find_delta removals]. fold (manifest_keys (manifest_file w p)).
    rewrite Hsame. apply difference_diag_L.
  - cbn [find_delta additions]. fold (manifest_keys (manifest_file w p)).
    rewrite Hsame. apply difference_diag_L.
Qed.

Section RunFacts.

Variable BATCH : nat.
Variable w : World.
Variables importer_pk repository_pk : string.
Variable s : State.
Variable importer : FileImporter.t.
Variable repository : Repository.t.

Hypothesis Himporter : importers w !! importer_pk = Some importer.
Hypothesis Hrepository : repositories w !! repository_pk = Some repository.

Local Abbreviation base := (latest_version repository_pk s).
Local Abbreviation run := (synchronize BATCH w importer_pk repository_pk s).
Local Abbreviation opened := (opening s repository_pk repository importer).
Local Abbreviation n :=
  (RepositoryVersion.number (next_version (latest_version repository_pk s))).

(** Syncing again against an unchanged remote: when the latest version
    already holds exactly the keys of the manifest, the run hands no change
    to the engine, whatever the engine would make of changes, logs no
    report, and seals a version with the content of the latest one. *)
Theorem resync_is_noop (feed p : string) (parsed : urllib.ParseResult) :
  FileImporter.feed_url importer = Some feed ->
  PyStr.is_empty feed = false ->
  urllib.urlparse feed = Ok parsed ->
  downloader_fetch w (Some feed) = Ok p ->
  fetch_content base = manifest_keys (manifest_file w p) ->
  run = (committed s repository_pk
           (from_option RepositoryVersion.content [] base) opened,
         Ok tt) /\
  logged_reports (trace (fst run)) = logged_reports (trace s).
Proof.
  intros Hf Hne Hp Hd Hsame.
  assert (Hrun := synchronize_unchanged BATCH w importer_pk repository_pk s
                    importer repository feed p parsed Himporter Hrepository
                    Hf Hne Hp Hd Hsame).
  split; [exact Hrun |]. rewrite Hrun. unfold committed. cbn [fst trace].
  rewrite !logged_reports_app.
  change (logged_reports opened) with (@nil ChangeReport).
  cbn. by rewrite app_nil_r.
Qed.

(** The shape of every run that gets past the checks: the working directory
    is entered, one version is created, the run is logged, the feed URL is
    downloaded (the one download of the run), then reports are logged, then
    the version is sealed if the run ended normally and discarded if it
    raised, and the working directory is left; no version stays open. *)
Theorem run_trace_shape :
  truthy (FileImporter.feed_url importer) = true ->
  provisional (fst run) = None /\
  exists reports,
    trace (fst run)
    = (trace s
       ++ [EnterWorkingDirectory; CreateVersion repository_pk n;
           LogInfo (Repository.name repository) (FileImporter.name importer);
           Download (FileImporter.feed_url importer)]
       ++ debug_events w repository importer reports
       ++ [closing_event repository_pk n (snd run);
           ExitWorkingDirectory])%list.
Proof.
  intros Ht.
  rewrite (synchronize_cases BATCH w importer_pk repository_pk s importer
             repository Himporter Hrepository Ht). cbv zeta.
  destruct (downloader_fetch w (FileImporter.feed_url importer)) as [p | e].
  2: { split; [reflexivity |]. exists []. by rewrite debug_events_nil. }
  destruct (build_additions importer _ _) as [adds | e].
  2: { split; [reflexivity |]. exists []. by rewrite debug_events_nil. }
  destruct (apply_changes _ _ _) as [content' [reports e]]. cbn [fst snd].
  destruct e as [e |]; [| destruct (snd (plan_changes _ _)) as [e |]];
    (split; [reflexivity |]); exists reports;
    unfold aborted, committed, opening; cbn [fst snd trace closing_event];
    by rewrite <- !app_assoc.
Qed.

(** Whatever the engine makes of each change, a run that ends normally (so
    also one with items reported as failed) seals a version that keeps every
    key the base version shares with the manifest and holds no key outside
    the base version and the manifest. *)
Theorem committed_keys_bounds (feed p : string)
    (parsed : urllib.ParseResult) :
  0 < BATCH ->
  FileImporter.feed_url importer = Some feed ->
  PyStr.is_empty feed = false ->
  urllib.urlparse feed = Ok parsed ->
  downloader_fetch w (Some feed) = Ok p ->
  snd run = Ok tt ->
  exists v,
    latest_version repository_pk (fst run) = Some v /\
    fetch_content base ∩ manifest_keys (manifest_file w p)
    ⊆ fetch_content (Some v) /\
    fetch_content (Some v)
    ⊆ fetch_content base ∪ manifest_keys (manifest_file w p).
Proof.
  intros HB Hf Hne Hp Hd.
  rewrite (synchronize_applies BATCH w importer_pk repository_pk s importer
             repository Himporter Hrepository feed p parsed Hf Hne Hp Hd).
  cbv zeta.
  set (manifest := manifest_file w p).
  set (delta := find_delta manifest (fetch_content base) true).
  set (adds := generate_additions parsed
                 (os_path.dirname (urllib.path parsed)) manifest delta).
  set (rems := fst (generate_removals BATCH base delta)).
  pose proof (apply_changes_bounds (outcome w)
                (map Add adds ++ map Remove rems)
                (RepositoryVersion.content (next_version base))) as [Hlo Hhi].
  destruct (snd (snd (apply_changes (outcome w)
                        (map Add adds ++ map Remove rems)
                        (RepositoryVersion.content (next_version base)))));
    [discriminate |].
  intros _. eexists (RepositoryVersion.mk _ _).
  split; [apply latest_version_sealed |].
  cbn [fetch_content RepositoryVersion.content].
  fold (content_keys (fst (apply_changes (outcome w)
                             (map Add adds ++ map Remove rems)
                             (RepositoryVersion.content (next_version base))))).
  rewrite added_keys_plan in Hhi. rewrite removed_keys_plan in Hlo.
  assert (HL : content_keys (RepositoryVersion.content (next_version base))
               = fetch_content base) by (by destruct base).
  rewrite HL in Hlo, Hhi.
  assert (Hadd : (list_to_set
                    (map (fun q => key_of_content (PendingContent.model q))
                         adds) : gset Key)
                 = manifest_keys manifest ∖ fetch_content base)
    by apply (additions_item_keys parsed _ manifest (fetch_content base) true).
  rewrite Hadd in Hhi.
  assert (Hrem : content_keys rems
                 ⊆ fetch_content base ∖ manifest_keys manifest).
  { subst rems. destruct base as [b |] eqn:Hb.
    - rewrite removal_record_keys by done.
      apply intersection_subseteq_l.
    - subst delta. cbn [fetch_content].
      rewrite generate_removals_no_base. done. }
  revert Hlo Hhi Hrem.
  generalize (content_keys (fst (apply_changes (outcome w)
                                   (map Add adds ++ map Remove rems)
                                   (RepositoryVersion.content
                                      (next_version base)))))
    (content_keys rems) (fetch_content base) (manifest_keys manifest).
  intros K R L M Hlo Hhi Hrem. split; set_solver.
Qed.

(** Syncing twice in a row against an unchanged remote: after a run in which
    the engine applied every change, a second run from the state it left
    hands nothing to the engine and seals a further version with the same
    content. *)
Theorem sync_twice (feed p : string) (parsed : urllib.ParseResult) :
  0 < BATCH ->
  FileImporter.feed_url importer = Some feed ->
  PyStr.is_empty feed = false ->
  urllib.urlparse feed = Ok parsed ->
  downloader_fetch w (Some feed) = Ok p ->
  (forall c, outcome w c = Applied) ->
  let s1 := fst run in
  let again := synchronize BATCH w importer_pk repository_pk s1 in
  exists v,
    latest_version repository_pk s1 = Some v /\
    again = (committed s1 repository_pk (RepositoryVersion.content v)
               (opening s1 repository_pk repository importer),
             Ok tt) /\
    latest_version repository_pk (fst again)
    = Some (RepositoryVersion.mk (S (RepositoryVersion.number v))
                                 (RepositoryVersion.content v)).
Proof.
  intros HB Hf Hne Hp Hd Hoc s1 again.
  pose proof (synchronize_applies BATCH w importer_pk repository_pk s importer
                repository Himporter Hrepository feed p parsed Hf Hne Hp Hd)
    as Hrun.
  cbv zeta in Hrun.
  assert (Hoc' : forall c, raises (outcome w c) = false)
    by (by intros c; rewrite Hoc).
  match type of Hrun with
  | context [apply_changes (outcome w) ?cs ?c0] =>
      destruct (apply_changes_reports (outcome w) cs c0 Hoc') as [He _];
      pose proof (apply_changes_all_applied (outcome w) cs c0 Hoc) as Hc;
      pose proof (plan_result_keys BATCH base (manifest_file w p) true parsed
                    (os_path.dirname (urllib.path parsed)) HB) as Hkeys;
      cbv zeta in Hkeys; rewrite <- Hc in Hkeys;
      rewrite He in Hrun;
      set (content1 := fst (apply_changes (outcome w) cs c0)) in *
  end.
  rewrite mirror_result_keys in Hkeys.
  assert (Hlatest : latest_version repository_pk s1
                    = Some (RepositoryVersion.mk n content1)).
  { subst s1. rewrite Hrun. apply latest_version_sealed. }
  exists (RepositoryVersion.mk n content1).
  split; [exact Hlatest |].
  assert (Hagain := synchronize_unchanged BATCH w importer_pk repository_pk s1
                      importer repository feed p parsed Himporter Hrepository
                      Hf Hne Hp Hd).
  rewrite Hlatest in Hagain. specialize (Hagain Hkeys). cbn in Hagain.
  split; [exact Hagain |].
  subst again. rewrite Hagain. unfold committed. cbn [fst].
  rewrite Hlatest. apply latest_version_sealed.
Qed.

End RunFacts.

Lemma resync_is_noop_witness :
  let w := Scenario.world (Ok "/tmp/PULP_MANIFEST")
             [Entry.mk "a" "1" 10; Entry.mk "b" "2" 20]
             Scenario.additions_fail in
  latest_version "R" (fst (synchronize 2 w "I" "R" Scenario.store))
  = Some (RepositoryVersion.mk 2 [Scenario.a1; Scenario.b2]).
Proof.
  intros w.
  destruct (resync_is_noop 2 w "I" "R" Scenario.store Scenario.importer
              Scenario.repository eq_refl eq_refl Scenario.feed
              "/tmp/PULP_MANIFEST"
              (urllib.mkParseResult "http" "host" "/repo/PULP_MANIFEST"
                 "" "" "")
              eq_refl eq_refl eq_refl eq_refl) as [H _].
  - apply (bool_decide_unpack _). vm_compute. exact I.
  - rewrite H. vm_compute. reflexivity.
Defined.

Lemma run_trace_shape_witness :
  let w := Scenario.world (Raise (CollaboratorError "transport"))
                          Scenario.remote (fun _ => Applied) in
  provisional (fst (synchronize 2 w "I" "R" Scenario.store)) = None.
Proof.
  intros w.
  apply (run_trace_shape 2 w "I" "R" Scenario.store Scenario.importer
           Scenario.repository eq_refl eq_refl eq_refl).
Defined.

Lemma committed_keys_bounds_witness :
  let w := Scenario.world (Ok "/tmp/PULP_MANIFEST") Scenario.remote
                          Scenario.additions_fail in
  exists v,
    latest_version "R" (fst (synchronize 2 w "I" "R" Scenario.store)) = Some v /\
    fetch_content (Some Scenario.base) ∩ manifest_keys Scenario.remote
    ⊆ fetch_content (Some v).
Proof.
  intros w.
  destruct (committed_keys_bounds 2 w "I" "R" Scenario.store Scenario.importer
              Scenario.repository eq_refl eq_refl Scenario.feed
              "/tmp/PULP_MANIFEST"
              (urllib.mkParseResult "http" "host" "/repo/PULP_MANIFEST"
                 "" "" ""))
    as (v & H1 & H2 & _).
  - lia.
  - reflexivity.
  - reflexivity.
  - reflexivity.
  - reflexivity.
  - vm_compute. reflexivity.
  - exists v. split; [exact H1 | exact H2].
Defined.

Lemma sync_twice_witness :
  let w := Scenario.world (Ok "/tmp/PULP_MANIFEST") Scenario.remote
                          (fun _ => Applied) in
  let s1 := fst (synchronize 2 w "I" "R" Scenario.store) in
  latest_version "R" (fst (synchronize 2 w "I" "R" s1))
  = Some (RepositoryVersion.mk 3 [Scenario.b2; Scenario.c3]).
Proof.
  intros w s1.
  destruct (sync_twice 2 w "I" "R" Scenario.store Scenario.importer
              Scenario.repository eq_refl eq_refl Scenario.feed
              "/tmp/PULP_MANIFEST"
              (urllib.mkParseResult "http" "host" "/repo/PULP_MANIFEST"
                 "" "" ""))
    as (v & H1 & _ & H3).
  - lia.
  - reflexivity.
  - reflexivity.
  - reflexivity.
  - reflexivity.
  - intros c. reflexivity.
  - fold w in H1, H3. fold s1 in H1, H3. rewrite H3.
    assert (Hv : Some v
                 = Some (RepositoryVersion.mk 2 [Scenario.b2; Scenario.c3]))
      by (rewrite <- H1; vm_compute; reflexivity).
    injection Hv as ->. reflexivity.
Defined.

(** Logging is inert: switching the logger's DEBUG level changes neither the
    result of a run nor the version store it leaves, and with DEBUG off no
    report is logged. *)
Theorem logging_is_inert (BATCH : nat) (w : World)
    (importer_pk repository_pk : string) (s : State) (enabled : bool) :
  let r1 := synchronize BATCH w importer_pk repository_pk s in
  let r2 := synchronize BATCH (with_debug w enabled)
              importer_pk repository_pk s in
  snd r1 = snd r2 /\
  versions (fst r1) = versions (fst r2) /\
  provisional (fst r1) = provisional (fst r2) /\
  (enabled = false ->
   logged_reports (trace (fst r2)) = logged_reports (trace s)).
Proof.
  intros r1 r2. subst r1 r2.
  destruct (importers w !! importer_pk) as [importer |] eqn:Hi.
  2: { rewrite !synchronize_unknown_importer by done. done. }
  destruct (repositories w !! repository_pk) as [repository |] eqn:Hr.
  2: { rewrite !(synchronize_unknown_repository _ _ _ _ _ importer) by done.
       done. }
  destruct (truthy (FileImporter.feed_url importer)) eqn:Ht.
  2: { rewrite (synchronize_no_feed BATCH w importer_pk repository_pk s
                  importer repository Hi Hr Ht).
       rewrite (synchronize_no_feed BATCH (with_debug w enabled) importer_pk
                  repository_pk s importer repository Hi Hr Ht).
       done. }
  rewrite (synchronize_cases BATCH w importer_pk repository_pk s importer
             repository Hi Hr Ht).
  rewrite (synchronize_cases BATCH (with_debug w enabled) importer_pk
             repository_pk s importer repository Hi Hr Ht).
  cbv zeta. cbn [with_debug downloader_fetch manifest_file outcome].
  destruct (downloader_fetch w (FileImporter.feed_url importer)) as [p | e];
    [destruct (build_additions importer _ _) as [adds | e];
       [destruct (apply_changes _ _ _) as [content' [reports e]];
        cbn [fst snd];
        destruct e as [e |];
          [| destruct (snd (plan_changes _ _)) as [e |]] |] |];
    (split; [reflexivity |]); (split; [reflexivity |]);
    (split; [reflexivity |]); intros ->;
    unfold aborted, committed, opening; cbn [fst trace];
    rewrite !logged_reports_app; cbn; by rewrite ?app_nil_r.
Qed.

Lemma logging_is_inert_witness :
  let w := Scenario.world (Ok "/tmp/PULP_MANIFEST") Scenario.remote
                          Scenario.additions_fail in
  logged_reports
    (trace (fst (synchronize 2 (with_debug w false) "I" "R" Scenario.store)))
  = [].
Proof.
  intros w.
  destruct (logging_is_inert 2 w "I" "R" Scenario.store false)
    as (_ & _ & _ & H).
  apply (H eq_refl).
Defined.

(** ** Fetch URLs as text *)

Lemma append_assoc (s t u : string) : (s ++ t) ++ u = s ++ t ++ u.
Proof.
  induction s as [| a s IH]; [done |]. by rewrite !append_cons, IH.
Qed.

Lemma append_empty_r (s : string) : s ++ EmptyString = s.
Proof.
  induction s as [| a s IH]; [done |]. by rewrite append_cons, IH.
Qed.

Lemma contains_append (c : ascii) (s t : string) :
  PyStr.contains c (s ++ t) = PyStr.contains c s || PyStr.contains c t.
Proof.
  induction s as [| a s IH]; [done |].
  rewrite append_cons. cbn [PyStr.contains]. by rewrite IH, orb_assoc.
Qed.

Lemma all_append (p : ascii -> bool) (s t : string) :
  PyStr.all p (s ++ t) = PyStr.all p s && PyStr.all p t.
Proof.
  induction s as [| a s IH]; [done |].
  rewrite append_cons. cbn [PyStr.all]. by rewrite IH, andb_assoc.
Qed.

Lemma all_excludes (p : ascii -> bool) (c : ascii) (s : string) :
  p c = false -> PyStr.all p s = true -> PyStr.contains c s = false.
Proof.
  intros Hc. induction s as [| a s IH]; [done |]. cbn [PyStr.all PyStr.contains].
  intros [Ha Hs]%andb_prop. rewrite (IH Hs), orb_false_r.
  apply Ascii.eqb_neq. intros ->. congruence.
Qed.

Lemma partition_absent (c : ascii) (s : string) :
  PyStr.contains c s = false -> PyStr.partition c s = None.
Proof.
  induction s as [| a s IH]; [done |]. cbn [PyStr.contains PyStr.partition].
  intros [Ha Hs]%orb_false_elim. by rewrite Ha, (IH Hs).
Qed.

Lemma partition_at_mark (c : ascii) (s t : string) :
  PyStr.contains c s = false ->
  PyStr.partition c (s ++ String c t) = Some (s, t).
Proof.
  induction s as [| a s IH]; rewrite ?append_empty, ?append_cons.
  - intros _. cbn [PyStr.partition]. by rewrite Ascii.eqb_refl.
  - cbn [PyStr.contains PyStr.partition].
    intros [Ha Hs]%orb_false_elim. by rewrite Ha, (IH Hs).
Qed.

Lemma contains_marked (c m : ascii) (t : string) :
  PyStr.contains c (marked m t)
  = negb (PyStr.is_empty t) && (Ascii.eqb m c || PyStr.contains c t).
Proof. by destruct t. Qed.

(** Splitting a text at its first mark gives back the two parts that were
    written around the mark, and the whole text when nothing was written
    behind it. *)
Lemma partition_marked (c : ascii) (s t : string) :
  PyStr.contains c s = false ->
  match PyStr.partition c (s ++ marked c t) with
  | Some (u, f) => (u, f)
  | None => (s ++ marked c t, EmptyString)
  end = (s, t).
Proof.
  intros Hs. destruct t as [| a t]; cbn [marked PyStr.is_empty].
  - by rewrite append_empty_r, (partition_absent c s Hs).
  - by rewrite (partition_at_mark c s _ Hs).
Qed.

Lemma span_until_at (p : ascii -> bool) (h : string) (a : ascii)
    (t : string) :
  PyStr.all (fun c => negb (p c)) h = true ->
  p a = true ->
  PyStr.span_until p (h ++ String a t) = (h, String a t).
Proof.
  intros Hh Ha. induction h as [| b h IH]; rewrite ?append_empty, ?append_cons.
  - cbn [PyStr.span_until]. by rewrite Ha.
  - cbn [PyStr.all] in Hh. apply andb_prop in Hh as [Hb Hh].
    cbn [PyStr.span_until]. apply negb_true_iff in Hb.
    by rewrite Hb, (IH Hh).
Qed.

Lemma marked_append (u : string) (m : ascii) (t : string) :
  (if PyStr.is_empty t then u else u ++ String m t) = u ++ marked m t.
Proof. destruct t; cbn [marked PyStr.is_empty]; by rewrite ?append_empty_r. Qed.

Lemma prefix_empty (s : string) : String.prefix EmptyString s = true.
Proof. by destruct s. Qed.

Lemma lower_char_idem (c : ascii) :
  PyStr.lower_char (PyStr.lower_char c) = PyStr.lower_char c.
Proof. by destruct c as [[] [] [] [] [] [] [] []]. Qed.

Lemma scheme_char_lower (c : ascii) :
  urllib.scheme_char c = true ->
  urllib.scheme_char (PyStr.lower_char c) = true.
Proof. by destruct c as [[] [] [] [] [] [] [] []]. Qed.

Lemma lower_idem (s : string) : PyStr.lower (PyStr.lower s) = PyStr.lower s.
Proof.
  induction s as [| a s IH]; [done |]. cbn [PyStr.lower].
  by rewrite lower_char_idem, IH.
Qed.

Lemma scheme_text_lower (s : string) :
  scheme_text s = true -> scheme_text (PyStr.lower s) = true.
Proof.
  unfold scheme_text. intros [Hn Ha]%andb_prop. apply andb_true_intro. split.
  - by destruct s.
  - clear Hn. induction s as [| a s IH]; [done |].
    cbn [PyStr.all PyStr.lower] in *. apply andb_prop in Ha as [H1 H2].
    by rewrite (scheme_char_lower a H1), (IH H2).
Qed.


(** [urlsplit] of a text with a scheme, a host and an absolute path takes
    the text apart at its marks. *)
Lemma urlsplit_text (sch host pth qry frag : string) :
  scheme_text sch = true ->
  host_text host = true ->
  PyStr.startswith "/" pth = true ->
  PyStr.contains "?" pth = false ->
  PyStr.contains "#" pth = false ->
  PyStr.contains "#" qry = false ->
  urllib.urlsplit
    (sch ++ "://" ++ host ++ pth ++ marked "?" qry ++ marked "#" frag)
  = Ok (PyStr.lower sch, host, pth, qry, frag).
Proof.
  intros [Hne Hall]%andb_prop Hhost Hp Hq Hf Hqf.
  apply andb_prop in Hhost as [[Hh Hd]%andb_prop Hb%negb_true_iff].
  set (tail := pth ++ marked "?" qry ++ marked "#" frag).
  assert (Hcolon : PyStr.contains ":" sch = false)
    by (by apply (all_excludes urllib.scheme_char)).
  unfold urllib.urlsplit.
  change (sch ++ "://" ++ host ++ tail)
    with (sch ++ String ":" (String "/" (String "/" (host ++ tail)))).
  rewrite (partition_at_mark ":" sch _ Hcolon).
  destruct sch as [| c pre]; [done |].
  assert (Hrest : urllib.split_rest (PyStr.lower (String c pre))
                    (String "/" (String "/" (host ++ tail)))
                  = Ok (PyStr.lower (String c pre), host, pth, qry, frag)).
  { unfold urllib.split_rest, PyStr.startswith.
    change (String.prefix "//" (String "/" (String "/" (host ++ tail))))
      with (String.prefix "" (host ++ tail)).
    rewrite prefix_empty. cbn [urllib.splitnetloc].
    destruct pth as [| a pth]; [done |].
    rewrite startswith_slash_cons in Hp. apply Ascii.eqb_eq in Hp as ->.
    subst tail. rewrite append_cons.
    rewrite (span_until_at urllib.is_delim host "/" _ Hd eq_refl).
    rewrite Hb. cbn [rbind].
    rewrite <- append_cons, <- append_assoc.
    rewrite partition_marked.
    2:{ rewrite contains_append, Hf, contains_marked, Hqf. cbn.
        by rewrite andb_false_r. }
    by rewrite partition_marked. }
  rewrite Hall. cbn [PyStr.is_empty PyStr.all andb orb negb].
  change (PyStr.isdigit "/") with false. cbn [andb negb].
  rewrite Hrest. by destruct (String.eqb (String c pre) "http").
Qed.

Lemma startswith_below (dir t : string) :
  PyStr.is_empty dir
  || (PyStr.startswith "/" dir && negb (PyStr.endswith os_path.sep dir))
  = true ->
  PyStr.startswith "/" (dir ++ "/" ++ t) = true.
Proof.
  destruct dir as [| a dir]; intros H.
  - apply (startswith_slash_cons "/").
  - cbn [PyStr.is_empty orb] in H. apply andb_prop in H as [H _].
    rewrite startswith_slash_cons in H. rewrite append_cons.
    by rewrite startswith_slash_cons.
Qed.

(** [urlparse] of the text of a feed URL: its path is the directory, a
    slash and the file name; parameters, query and fragment are what was
    written behind their marks. *)
Lemma urlparse_text (sch host dir name prm qry frag : string) :
  scheme_text sch = true ->
  host_text host = true ->
  directory_text dir = true ->
  file_name_text name = true ->
  params_text sch prm = true ->
  PyStr.contains "#" qry = false ->
  urllib.urlparse (url_text sch host (dir ++ "/" ++ name) prm qry frag)
  = Ok (urllib.mkParseResult (PyStr.lower sch) host (dir ++ "/" ++ name)
          prm qry frag).
Proof.
  intros Hsch Hhost Hdir Hname Hprm Hqf.
  apply andb_prop in Hdir as [[[Hd1 Hd2]%andb_prop Hd3]%andb_prop Hdir].
  apply andb_prop in Hname as [[[Hn1 Hn2]%andb_prop Hn3]%andb_prop Hn4].
  apply andb_prop in Hprm as [[[Hp1 Hp2]%andb_prop Hp3]%andb_prop Hp4].
  apply negb_true_iff in Hd1, Hd2, Hd3, Hn1, Hn2, Hn3, Hn4, Hp2, Hp3, Hp4.
  unfold urllib.urlparse, url_text.
  rewrite <- (append_assoc (dir ++ "/" ++ name) (marked ";" prm)).
  rewrite urlsplit_text; try done.
  - cbn [rbind].
    destruct prm as [| a prm]; cbn [marked PyStr.is_empty].
    + rewrite append_empty_r, !contains_append, Hd1, Hn1. cbn.
      by rewrite andb_false_r.
    + cbn [PyStr.is_empty orb] in Hp1. rewrite Hp1.
      rewrite (contains_append ";" (dir ++ "/" ++ name)). cbn [PyStr.contains].
      rewrite Ascii.eqb_refl, orb_true_r. cbn [andb].
      unfold urllib.splitparams.
      rewrite !append_assoc. rewrite (contains_append "/" dir).
      change ("/" ++ name ++ String ";" (String a prm))
        with (String "/" (name ++ String ";" (String a prm))).
      cbn [PyStr.contains]. rewrite Ascii.eqb_refl, orb_true_r.
      rewrite (rpartition_last "/" dir).
      2:{ rewrite contains_append. unfold os_path.sep in Hn4.
          rewrite Hn4. cbn [orb PyStr.contains]. cbn [PyStr.contains] in Hp2.
          by rewrite Hp2. }
      rewrite (partition_at_mark ";" name _ Hn1).
      by rewrite append_assoc.
  - rewrite append_assoc. by apply startswith_below.
  - rewrite !contains_append, contains_marked, Hd2, Hn2, Hp3. cbn.
    by rewrite andb_false_r.
  - rewrite !contains_append, contains_marked, Hd3, Hn3, Hp4. cbn.
    by rewrite andb_false_r.
Qed.

(** [urlunparse] writes the parts of a parse result with a scheme, a host
    and an absolute path back as that text. *)
Lemma urlunparse_text (sch host pth prm qry frag : string) :
  PyStr.is_empty sch = false ->
  PyStr.is_empty host = false ->
  PyStr.startswith "/" pth = true ->
  urllib.urlunparse (urllib.mkParseResult sch host pth prm qry frag)
  = url_text sch host pth prm qry frag.
Proof.
  intros Hs Hh Hp. unfold urllib.urlunparse, urllib.urlunsplit, url_text.
  cbn [urllib.scheme urllib.netloc urllib.path urllib.params urllib.query
       urllib.fragment].
  change (pth ++ ";" ++ prm) with (pth ++ String ";" prm).
  rewrite (marked_append pth ";" prm), Hs, Hh. cbn [negb orb].
  assert (Habs : PyStr.startswith "/" (pth ++ marked ";" prm) = true).
  { destruct pth as [| a pth]; [done |]. rewrite append_cons.
    by rewrite startswith_slash_cons in *. }
  rewrite Habs, andb_false_r.
  set (u := sch ++ ":" ++ "//" ++ host ++ pth ++ marked ";" prm).
  change (u ++ "?" ++ qry) with (u ++ String "?" qry).
  rewrite (marked_append u "?" qry).
  change ((u ++ marked "?" qry) ++ "#" ++ frag)
    with ((u ++ marked "?" qry) ++ String "#" frag).
  rewrite (marked_append (u ++ marked "?" qry) "#" frag).
  subst u. by rewrite !append_assoc.
Qed.

(** The path that [generate] joins for a relative entry path: the
    directory of the feed path, a slash, the entry path. *)
Lemma join_below_feed (dir name p : string) :
  PyStr.is_empty dir
  || (PyStr.startswith "/" dir && negb (PyStr.endswith os_path.sep dir))
  = true ->
  PyStr.contains os_path.sep name = false ->
  PyStr.startswith "/" p = false ->
  os_path.join (os_path.dirname (dir ++ "/" ++ name)) p = dir ++ "/" ++ p.
Proof.
  intros Hdir Hname Hrel. destruct dir as [| a dir].
  - rewrite !append_empty, (dirname_at_root name Hname).
    unfold os_path.join. change (String os_path.sep EmptyString) with "/".
    by rewrite Hrel.
  - cbn [PyStr.is_empty orb] in Hdir.
    apply andb_prop in Hdir as [_ He%negb_true_iff].
    rewrite (dirname_of_file (String a dir) name eq_refl He Hname).
    by apply join_relative.
Qed.

(** C10 as stated fails: the entry path is put into the URL as it is. For
    the feed URL "http://host/repo/PULP_MANIFEST?token=abc", whose query is
    "token=abc", the entry "a#b" gets the fetch URL
    "http://host/repo/a#b?token=abc": read as a URL it has the path
    "/repo/a" and no query, the feed's query being part of its fragment. *)
Lemma fetch_url_loses_query :
  let feed := "http://host/repo/PULP_MANIFEST?token=abc" in
  let manifest := [Entry.mk "a#b" "7" 7] in
  urllib.urlparse feed
  = Ok (urllib.mkParseResult "http" "host" "/repo/PULP_MANIFEST" ""
          "token=abc" "") /\
  exists planned,
    build_additions (FileImporter.mk "files" (Some feed)) manifest
      (find_delta manifest ∅ true) = Ok planned /\
    fst (iterable planned)
    = [PendingContent.mk (FileContent.mk "a#b" "7")
         [PendingArtifact.mk (Artifact.mk 7 "7")
            "http://host/repo/a#b?token=abc" "a#b"]] /\
    urllib.urlparse "http://host/repo/a#b?token=abc"
    = Ok (urllib.mkParseResult "http" "host" "/repo/a" "" ""
            "b?token=abc").
Proof.
  split; [vm_compute; reflexivity |].
  eexists. repeat split; vm_compute; reflexivity.
Qed.

(** C10, amended: for a feed URL with the text
    scheme://host/dir/NAME;params?query#fragment (parameters, query and
    fragment written only when not empty) and a manifest entry among the
    additions whose path is relative, the addition-plan item has the fetch
    URL scheme://host/dir/ENTRY;params?query#fragment: the entry's path
    joined onto the directory of the feed URL's path, with the scheme (in
    lower case), the host, the parameters, the query and the fragment that
    [urlparse] reads off the feed URL around it. The entry's path is put in
    unescaped; when it holds no [?] and no [#], the fetch URL parses again
    to the feed URL's scheme, host, query and fragment. Entry
    "sub/dir/file.iso" against "http://host/repo/PULP_MANIFEST" gets
    "http://host/repo/sub/dir/file.iso". *)
Theorem fetch_url_keeps_feed_parts (importer : FileImporter.t)
    (manifest : Manifest.t) (delta : Delta)
    (sch host dir name prm qry frag : string) (entry : Entry.t) :
  scheme_text sch = true ->
  host_text host = true ->
  directory_text dir = true ->
  file_name_text name = true ->
  params_text sch prm = true ->
  PyStr.contains "#" qry = false ->
  FileImporter.feed_url importer
  = Some (url_text sch host (dir ++ "/" ++ name) prm qry frag) ->
  entry ∈ Manifest.read manifest ->
  key_of_entry entry ∈ additions delta ->
  PyStr.startswith "/" (Entry.path entry) = false ->
  let fetch_url :=
    url_text (PyStr.lower sch) host (dir ++ "/" ++ Entry.path entry)
      prm qry frag in
  urllib.urlparse (url_text sch host (dir ++ "/" ++ name) prm qry frag)
  = Ok (urllib.mkParseResult (PyStr.lower sch) host (dir ++ "/" ++ name)
          prm qry frag) /\
  exists planned,
    build_additions importer manifest delta = Ok planned /\
    PendingContent.mk
      (FileContent.mk (Entry.path entry) (Entry.digest entry))
      [PendingArtifact.mk
         (Artifact.mk (Entry.size entry) (Entry.digest entry))
         fetch_url (Entry.path entry)]
    ∈ fst (iterable planned) /\
    (PyStr.contains "?" (Entry.path entry) = false ->
     PyStr.contains "#" (Entry.path entry) = false ->
     exists again,
       urllib.urlparse fetch_url = Ok again /\
       urllib.scheme again = PyStr.lower sch /\
       urllib.netloc again = host /\
       urllib.query again = qry /\
       urllib.fragment again = frag).
Proof.
  intros Hsch Hhost Hdir Hname Hprm Hqf Hfeed Hin Hk Hrel fetch_url.
  pose proof (urlparse_text sch host dir name prm qry frag
                Hsch Hhost Hdir Hname Hprm Hqf) as Hparse.
  pose proof (scheme_text_lower sch Hsch) as Hlow.
  assert (Hdirs : PyStr.is_empty dir
                  || (PyStr.startswith "/" dir
                      && negb (PyStr.endswith os_path.sep dir)) = true)
    by (by apply andb_prop in Hdir as [_ ?]).
  split; [exact Hparse |].
  eexists. split; [exact (build_additions_ok _ _ _ _ _ Hfeed Hparse) |].
  split.
  - cbn [iterable fst]. apply generate_additions_elem. exists entry.
    split; [done |]. split; [done |].
    unfold pending_content, urllib.replace_path.
    cbn [urllib.scheme urllib.netloc urllib.path urllib.params urllib.query
         urllib.fragment].
    rewrite join_below_feed; [| done | | done].
    2:{ by apply andb_prop in Hname as [_ ?%negb_true_iff]. }
    rewrite urlunparse_text; [done | | |].
    + by apply andb_prop in Hlow as [?%negb_true_iff _].
    + by apply andb_prop in Hhost as [[?%negb_true_iff _]%andb_prop _].
    + by apply startswith_below.
  - intros Hq Hf.
    apply andb_prop in Hdir as [[[_ Hd2]%andb_prop Hd3]%andb_prop _].
    apply andb_prop in Hprm as [[[_ _]%andb_prop Hp3]%andb_prop Hp4].
    apply negb_true_iff in Hd2, Hd3, Hp3, Hp4.
    unfold fetch_url, urllib.urlparse, url_text.
    rewrite <- (append_assoc (dir ++ "/" ++ Entry.path entry)
                  (marked ";" prm)).
    rewrite urlsplit_text; try done.
    + rewrite lower_idem. cbn [rbind].
      destruct (urllib.mem _ _ && _);
        [destruct (urllib.splitparams _) as [p prm'] |];
        (eexists; split; [reflexivity | done]).
    + rewrite append_assoc. by apply startswith_below.
    + rewrite !contains_append, contains_marked, Hd2, Hq, Hp3. cbn.
      by rewrite andb_false_r.
    + rewrite !contains_append, contains_marked, Hd3, Hf, Hp4. cbn.
      by rewrite andb_false_r.
Qed.

Lemma fetch_url_keeps_feed_parts_witness :
  (exists planned,
     build_additions Scenario.importer [Entry.mk "sub/dir/file.iso" "7" 7]
       (find_delta [Entry.mk "sub/dir/file.iso" "7" 7] ∅ true)
     = Ok planned /\
     PendingContent.mk
       (FileContent.mk "sub/dir/file.iso" "7")
       [PendingArtifact.mk (Artifact.mk 7 "7")
          "http://host/repo/sub/dir/file.iso" "sub/dir/file.iso"]
     ∈ fst (iterable planned)) /\
  (exists planned,
     build_additions
       (FileImporter.mk "files"
          (Some "HTTP://host:8080/repo/PULP_MANIFEST;v=1?token=abc#top"))
       [Entry.mk "sub/dir/file.iso" "7" 7]
       (find_delta [Entry.mk "sub/dir/file.iso" "7" 7] ∅ true)
     = Ok planned /\
     PendingContent.mk
       (FileContent.mk "sub/dir/file.iso" "7")
       [PendingArtifact.mk (Artifact.mk 7 "7")
          "http://host:8080/repo/sub/dir/file.iso;v=1?token=abc#top"
          "sub/dir/file.iso"]
     ∈ fst (iterable planned) /\
     exists again,
       urllib.urlparse
         "http://host:8080/repo/sub/dir/file.iso;v=1?token=abc#top"
       = Ok again /\
       urllib.scheme again = "http" /\ urllib.netloc again = "host:8080" /\
       urllib.query again = "token=abc" /\ urllib.fragment again = "top").
Proof.
  split.
  - destruct (fetch_url_keeps_feed_parts Scenario.importer
                [Entry.mk "sub/dir/file.iso" "7" 7]
                (find_delta [Entry.mk "sub/dir/file.iso" "7" 7] ∅ true)
                "http" "host" "/repo" "PULP_MANIFEST" "" "" ""
                (Entry.mk "sub/dir/file.iso" "7" 7))
      as (_ & planned & H1 & H2 & _).
    + reflexivity.
    + reflexivity.
    + reflexivity.
    + reflexivity.
    + reflexivity.
    + reflexivity.
    + reflexivity.
    + constructor.
    + apply (bool_decide_unpack _). vm_compute. exact I.
    + reflexivity.
    + exists planned. split; [exact H1 | exact H2].
  - destruct (fetch_url_keeps_feed_parts
                (FileImporter.mk "files"
                   (Some "HTTP://host:8080/repo/PULP_MANIFEST;v=1?token=abc#top"))
                [Entry.mk "sub/dir/file.iso" "7" 7]
                (find_delta [Entry.mk "sub/dir/file.iso" "7" 7] ∅ true)
                "HTTP" "host:8080" "/repo" "PULP_MANIFEST" "v=1" "token=abc"
                "top" (Entry.mk "sub/dir/file.iso" "7" 7))
      as (_ & planned & H1 & H2 & H3).
    + reflexivity.
    + reflexivity.
    + reflexivity.
    + reflexivity.
    + reflexivity.
    + reflexivity.
    + reflexivity.
    + constructor.
    + apply (bool_decide_unpack _). vm_compute. exact I.
    + reflexivity.
    + exists planned. split; [exact H1 |]. split; [exact H2 |].
      apply H3; reflexivity.
Defined.
